(** * POD Art Shop backend: a shallow embedding of [main.py]

    The development follows the request handlers of [src/main.py]:
    the Printify catalog sync, the catalog query, checkout-session
    creation and the Stripe webhook that places the Printify order.

    Python values are embedded as an inductive type, Python floats as
    the kernel's binary64 floats, exceptions as an error type, and the
    MongoDB collections as lists threaded through a state-and-error
    monad. *)

From Stdlib Require Import ZArith List String Ascii Bool Floats Lia.
Import ListNotations.

Set Warnings "-register-all,-inexact-float".

Local Open Scope string_scope.
Local Open Scope Z_scope.

(** ** Python values *)

(** The values [r.json()] and a request body can hold.  A [dict] is an
    association list read by first occurrence of the key. *)
Inductive value : Type :=
| VNone
| VBool (b : bool)
| VInt (z : Z)
| VFloat (f : float)
| VStr (s : string)
| VList (l : list value)
| VDict (d : list (string * value)).

Definition dict := list (string * value).

(** What [isinstance(x, (int, float))] accepts, read as a number:
    [bool] is a subclass of [int]. *)
Inductive num : Type :=
| NInt (z : Z)
| NFloat (f : float).

(** Exceptions the handlers can raise, with FastAPI's [HTTPException]
    carrying its status code and detail. *)
Inductive exn : Type :=
| HTTPException (status_code : Z) (detail : string)
| AttributeError
| TypeError
| ValueError
| OverflowError
| NotImplementedError
| RequestException.

Inductive result (A : Type) : Type :=
| Ok (a : A)
| Raise (e : exn).
Arguments Ok {A} a.
Arguments Raise {A} e.

Definition rbind {A B} (r : result A) (k : A -> result B) : result B :=
  match r with
  | Ok a => k a
  | Raise e => Raise e
  end.

Declare Scope result_scope.
Delimit Scope result_scope with result.
Notation "'let?' x ':=' r 'in' k" := (rbind r (fun x => k))
  (at level 10, x pattern, r at level 100, k at level 200) : result_scope.
Local Open Scope result_scope.

(** ** Floats *)

Module Py.

(** [bool(f)] for a float: [f != 0.0], so a NaN is truthy. *)
Definition float_truthy (f : float) : bool := negb (PrimFloat.eqb f 0%float).

(** [float(z)] for an [int]: the nearest binary64, [OverflowError] when
    none is finite. *)
Definition float_of_int (z : Z) : result float :=
  match binary_normalize prec emax z 0 false with
  | S754_infinity _ => Raise OverflowError
  | sf => Ok (SF2Prim sf)
  end.

(** The integer value of a finite float's mantissa and sign. *)
Definition signed (s : bool) (m : positive) : Z :=
  if s then Z.neg m else Z.pos m.

(** [int(f)]: truncation toward zero; [ValueError] on a NaN and
    [OverflowError] on an infinity. *)
Definition int_of_float (f : float) : result Z :=
  match Prim2SF f with
  | S754_zero _ => Ok 0
  | S754_nan => Raise ValueError
  | S754_infinity _ => Raise OverflowError
  | S754_finite s m e =>
      if 0 <=? e then Ok (signed s m * 2 ^ e)
      else Ok (Z.quot (signed s m) (2 ^ (- e)))
  end.

(** [f > z] for a float and an [int]: Python compares the exact values. *)
Definition float_gt_int (f : float) (z : Z) : bool :=
  match Prim2SF f with
  | S754_zero _ => z <? 0
  | S754_nan => false
  | S754_infinity s => negb s
  | S754_finite s m e =>
      if 0 <=? e then z <? signed s m * 2 ^ e
      else z * 2 ^ (- e) <? signed s m
  end.

(** A float above zero, read off its sign: a positive finite float or
    the positive infinity. *)
Definition positive (f : float) : Prop :=
  match Prim2SF f with
  | S754_infinity false | S754_finite false _ _ => True
  | _ => False
  end.

(** The integer nearest to [n / d] for [0 < d], ties to the even one. *)
Definition div_half_even (n d : Z) : Z :=
  let q := n / d in
  let r := n mod d in
  match 2 * r ?= d with
  | Lt => q
  | Gt => q + 1
  | Eq => if Z.even q then q else q + 1
  end.

(** [round(f, 2)] for a float: the exact value of [f] is rounded to two
    decimals, ties to even, and the nearest binary64 of that decimal is
    returned; zeros, infinities, NaNs and integral floats round to
    themselves. *)
Definition round2 (f : float) : float :=
  match Prim2SF f with
  | S754_finite s m e =>
      if 0 <=? e then f
      else
        let n := div_half_even (Z.pos m * 100) (2 ^ (- e)) in
        match n with
        | Z.pos p =>
            SF2Prim (SFdiv prec emax (S754_finite s p 0) (S754_finite false 100 0))
        | _ => SF2Prim (S754_zero s)
        end
  | _ => f
  end.

End Py.

(** ** Builtins on values *)

Module Value.

(** Python truthiness: [bool(v)]. *)
Definition truthy (v : value) : bool :=
  match v with
  | VNone => false
  | VBool b => b
  | VInt z => negb (z =? 0)
  | VFloat f => Py.float_truthy f
  | VStr s => negb (String.eqb s "")
  | VList l => negb (Nat.eqb (List.length l) 0)
  | VDict d => negb (Nat.eqb (List.length d) 0)
  end.

(** [a or b]. *)
Definition or (a b : value) : value := if truthy a then a else b.

Fixpoint assoc (k : string) (d : dict) : option value :=
  match d with
  | [] => None
  | (k', v) :: d' => if String.eqb k k' then Some v else assoc k d'
  end.

(** [d.get(k, default)] and [d.get(k)] on a dict. *)
Definition get_default (d : dict) (k : string) (default : value) : value :=
  match assoc k d with
  | Some v => v
  | None => default
  end.

Definition get (d : dict) (k : string) : value := get_default d k VNone.

(** The elements a [for] loop visits: the items of a list, the
    characters of a string, the keys of a dict; anything else is not
    iterable. *)
Definition iter (v : value) : result (list value) :=
  match v with
  | VList l => Ok l
  | VStr s => Ok (map (fun c => VStr (String c EmptyString)) (list_ascii_of_string s))
  | VDict d => Ok (map (fun kv => VStr (fst kv)) d)
  | _ => Raise TypeError
  end.

(** Structural equality of values, the comparison an equality filter
    of the document store applies. *)
Fixpoint eqb (a b : value) {struct a} : bool :=
  match a, b with
  | VNone, VNone => true
  | VBool x, VBool y => Bool.eqb x y
  | VInt x, VInt y => x =? y
  | VFloat x, VFloat y => PrimFloat.Leibniz.eqb x y
  | VStr x, VStr y => String.eqb x y
  | VList x, VList y =>
      (fix go (l1 l2 : list value) {struct l1} : bool :=
         match l1, l2 with
         | [], [] => true
         | u :: l1', w :: l2' => eqb u w && go l1' l2'
         | _, _ => false
         end) x y
  | VDict x, VDict y =>
      (fix go (l1 l2 : dict) {struct l1} : bool :=
         match l1, l2 with
         | [], [] => true
         | (k1, u) :: l1', (k2, w) :: l2' =>
             String.eqb k1 k2 && eqb u w && go l1' l2'
         | _, _ => false
         end) x y
  | _, _ => false
  end.

End Value.

(** ** Numbers *)

Module Num.

(** [isinstance(v, (int, float))]. *)
Definition of_value (v : value) : option num :=
  match v with
  | VBool b => Some (NInt (Z.b2z b))
  | VInt z => Some (NInt z)
  | VFloat f => Some (NFloat f)
  | _ => None
  end.

Definition truthy (n : num) : bool :=
  match n with
  | NInt z => negb (z =? 0)
  | NFloat f => Py.float_truthy f
  end.

(** [n > 10]. *)
Definition gt10 (n : num) : bool :=
  match n with
  | NInt z => 10 <? z
  | NFloat f => PrimFloat.ltb 10%float f
  end.

(** [float(n)]. *)
Definition to_float (n : num) : result float :=
  match n with
  | NInt z => Py.float_of_int z
  | NFloat f => Ok f
  end.

(** [max(n, f)] for a float [f]: the second argument wins only when it
    compares greater than the first. *)
Definition max (n : num) (f : float) : num :=
  match n with
  | NInt z => if Py.float_gt_int f z then NFloat f else n
  | NFloat g => if PrimFloat.ltb g f then NFloat f else n
  end.

(** [round(n, 2)]: an [int] is returned unchanged. *)
Definition round2 (n : num) : num :=
  match n with
  | NInt z => NInt z
  | NFloat f => NFloat (Py.round2 f)
  end.

End Num.

(** ** Documents *)

(** The document [sync_printify_products] builds for a product.  The
    passthrough fields hold whatever value the provider sent. *)
Module StoreProduct.
Record t : Type := mk {
  id : value;
  title : value;
  description : value;
  images : list value;
  tags : value;
  categories : value;
  variants : value;
  default_variant_id : value;
  price : num;
  currency : string;
  available : value
}.
End StoreProduct.

Module CheckoutItem.
Record t : Type := mk {
  product_id : string;
  variant_id : option Z;
  quantity : Z;
  unit_amount : option float
}.
End CheckoutItem.

Module CheckoutSessionIn.
Record t : Type := mk {
  user_id : option string;
  items : list CheckoutItem.t;
  currency : string
}.
End CheckoutSessionIn.

(** The order document of [create_checkout_session];
    [printify_order_id] is absent until the webhook sets it. *)
Module Order.
Record t : Type := mk {
  user_id : option string;
  items : list CheckoutItem.t;
  amount_total : float;
  currency : string;
  status : string;
  stripe_session_id : string;
  printify_order_id : option value
}.

Definition set_status (st : string) (o : t) : t :=
  mk (user_id o) (items o) (amount_total o) (currency o) st
     (stripe_session_id o) (printify_order_id o).

Definition set_printify_order_id (v : value) (o : t) : t :=
  mk (user_id o) (items o) (amount_total o) (currency o) (status o)
     (stripe_session_id o) (Some v).
End Order.

Module StripeWebhook.
Record t : Type := mk {
  id : string;
  type : string;
  data : dict
}.
End StripeWebhook.

(** ** The document store *)

(** The Document Store Gateway ([database.py] with [db],
    [create_document] and [get_documents], over the driver's [find_one]
    and [update_one]) is not among the sources.  A collection is the
    list of its documents in store-native order, and a document's
    [_id] is its position in it: documents are never deleted. *)
Module Collection.
Section Generic.
Context {A : Type}.

Fixpoint find_from (i : nat) (filt : A -> bool) (c : list A) : option (nat * A) :=
  match c with
  | [] => None
  | x :: c' => if filt x then Some (i, x) else find_from (S i) filt c'
  end.

(** Modelled from the spec: [find_one] of the absent store gateway
    returns the first document the filter matches, with its [_id], or
    nothing. *)
Definition find_one (filt : A -> bool) (c : list A) : option (nat * A) :=
  find_from 0%nat filt c.

(** Modelled from the spec: [update_one] of the absent store gateway
    applies the [$set] to the first document the filter matches and to
    no other. *)
Fixpoint update_one (filt : A -> bool) (set : A -> A) (c : list A) : list A :=
  match c with
  | [] => []
  | x :: c' => if filt x then set x :: c' else x :: update_one filt set c'
  end.

(** Modelled from the spec: [update_one({"_id": i}, ...)] of the absent
    store gateway, the update of the document with that [_id]. *)
Fixpoint update_id (i : nat) (set : A -> A) (c : list A) : list A :=
  match c, i with
  | [], _ => []
  | x :: c', O => set x :: c'
  | x :: c', S j => x :: update_id j set c'
  end.

(** Modelled from the spec: [create_document] of the absent
    [database.py], the generic insert, adds the document at the end. *)
Definition insert_one (x : A) (c : list A) : list A := c ++ [x].

(** Modelled from the spec: [get_documents] of the absent
    [database.py], the list-filtered query, returns the documents the
    filter matches, in store order, up to the limit. *)
Definition get_documents (filt : A -> bool) (limit : nat) (c : list A) : list A :=
  firstn limit (filter filt c).
End Generic.
End Collection.

(** The two collections the handlers of the claims read and write. *)
Record Store : Type := mkStore {
  storeproduct : list StoreProduct.t;
  order : list Order.t
}.

Definition with_storeproduct (c : list StoreProduct.t) (db : Store) : Store :=
  mkStore c (order db).

Definition with_order (c : list Order.t) (db : Store) : Store :=
  mkStore (storeproduct db) c.

(** Modelled from the spec: the filter [{"id": key}] of the absent
    store gateway on the product collection matches the documents
    whose id equals the key. *)
Definition by_id (key : value) (sp : StoreProduct.t) : bool :=
  Value.eqb (StoreProduct.id sp) key.

(** Modelled from the spec: the filter [{"stripe_session_id": key}] of
    the absent store gateway on the order collection. *)
Definition by_session (key : value) (o : Order.t) : bool :=
  Value.eqb (VStr (Order.stripe_session_id o)) key.

(** Environment-sourced settings, unset when [None]. *)
Record Config : Type := mkConfig {
  PRINTIFY_API_TOKEN : option string;
  PRINTIFY_SHOP_ID : option string;
  STRIPE_API_KEY : option string;
  FRONTEND_URL : string
}.

(** [not s] for an optional setting: unset or empty. *)
Definition unset (s : option string) : bool :=
  match s with
  | None => true
  | Some v => String.eqb v ""
  end.

Definition PRINTIFY_API_BASE : string := "https://api.printify.com/v1".

(** ** Catalog sync: [sync_printify_products] *)

Module SyncResponse.
Record t : Type := mk {
  synced : Z;
  products : list StoreProduct.t
}.
End SyncResponse.

(** [product_id = p.get("id") or p.get("_id")]. *)
Definition product_id_of (p : dict) : value :=
  Value.or (Value.get p "id") (Value.get p "_id").

(** The loop over [previews]: each entry must be a dict; its first
    truthy field among [src], [preview_url], [url] is appended. *)
Fixpoint collect_images (previews : list value) (images : list value)
  : result (list value) :=
  match previews with
  | [] => Ok images
  | VDict im :: rest =>
      let url :=
        Value.or (Value.or (Value.get im "src") (Value.get im "preview_url"))
                 (Value.get im "url") in
      collect_images rest (if Value.truthy url then images ++ [url] else images)
  | _ :: _ => Raise AttributeError
  end.

(** The price a numeric variant price contributes:
    [float(x) / 100.0 if x and x > 10 else float(x)]. *)
Definition variant_price (x : num) : result float :=
  if Num.truthy x && Num.gt10 x
  then let? f := Num.to_float x in Ok (PrimFloat.div f 100%float)
  else Num.to_float x.

(** One turn of the loop over [variants], on the pair
    [(default_variant_id, price)]. *)
Definition variant_step (acc : value * num) (v : value) : result (value * num) :=
  match v with
  | VDict v =>
      let default_variant_id :=
        if Value.truthy (Value.get v "is_default")
        then Value.or (Value.get v "id") (Value.get v "variant_id")
        else fst acc in
      match Num.of_value (Value.get v "price") with
      | Some x =>
          let? c := variant_price x in
          Ok (default_variant_id, Num.max (snd acc) c)
      | None => Ok (default_variant_id, snd acc)
      end
  | _ => Raise AttributeError
  end.

Fixpoint variants_loop (vs : list value) (acc : value * num) : result (value * num) :=
  match vs with
  | [] => Ok acc
  | v :: rest => let? acc' := variant_step acc v in variants_loop rest acc'
  end.

(** The body of the loop from [title = ...] to [doc = {...}]. *)
Definition normalize (p : dict) (product_id : value) : result StoreProduct.t :=
  let title :=
    Value.or (Value.or (Value.get p "title") (Value.get p "name")) (VStr "Untitled") in
  let description := Value.get p "description" in
  let previews :=
    Value.or (Value.or (Value.get p "images") (Value.get p "files")) (VList []) in
  let? previews_items := Value.iter previews in
  let? images := collect_images previews_items [] in
  let variants := Value.or (Value.get p "variants") (VList []) in
  let? variants_items := Value.iter variants in
  let? acc := variants_loop variants_items (VNone, NInt 0) in
  let (default_variant_id, price) := acc in
  Ok (StoreProduct.mk
        product_id
        title
        description
        (firstn 8 images)
        (Value.or (Value.get p "tags") (VList []))
        (Value.or (Value.get p "categories") (VList []))
        variants
        default_variant_id
        (Num.round2 (if Num.truthy price then price else NInt 0))
        "USD"
        (Value.get_default p "visible" (VBool true))).

(** Line 132, [existing = db["storeproduct"].find_one({"id": product_id})
    if db else None]: the lookup runs only when the store handle [db]
    tests true. *)
Definition existing (db_bool : bool) (key : value) (c : list StoreProduct.t)
  : option (nat * StoreProduct.t) :=
  if db_bool then Collection.find_one (by_id key) c else None.

(** Lines 132-136, the upsert by product id on the collection:
    overwrite the first stored document with that id when [existing]
    found one, insert the document otherwise. *)
Definition upsert_into (db_bool : bool) (doc : StoreProduct.t)
  (c : list StoreProduct.t) : list StoreProduct.t :=
  let key := StoreProduct.id doc in
  match existing db_bool key c with
  | Some _ => Collection.update_one (by_id key) (fun _ => doc) c
  | None => Collection.insert_one doc c
  end.

Definition upsert (db_bool : bool) (doc : StoreProduct.t) (db : Store) : Store :=
  with_storeproduct (upsert_into db_bool doc (storeproduct db)) db.

(** The loop over the fetched products, on the state
    [(synced, saved_docs)] and the store.  A record that is not a dict
    fails at its first [.get]; an exception leaves the store as the
    earlier records wrote it.

    [db_bool] is what the truth test [if db] of line 132 gives on the
    store handle of the absent [database.py]: true, false, or an
    exception (a driver's database object refuses [bool()] with
    [NotImplementedError]).  It is a parameter of the model and is
    only reached by a record whose document has been built. *)
Fixpoint sync_loop (db_bool : result bool) (products : list value) (synced : Z)
  (saved_docs : list StoreProduct.t) (db : Store)
  : Store * result SyncResponse.t :=
  match products with
  | [] => (db, Ok (SyncResponse.mk synced saved_docs))
  | VDict p :: rest =>
      let product_id := product_id_of p in
      if negb (Value.truthy product_id)
      then sync_loop db_bool rest synced saved_docs db
      else
        match normalize p product_id with
        | Ok doc =>
            match db_bool with
            | Ok b =>
                sync_loop db_bool rest (synced + 1) (saved_docs ++ [doc])
                  (upsert b doc db)
            | Raise e => (db, Raise e)
            end
        | Raise e => (db, Raise e)
        end
  | _ :: _ => (db, Raise AttributeError)
  end.

(** [sync_printify_products], given the list [get_printify_products]
    returned. *)
Definition sync_printify_products (db_bool : result bool) (products : list value)
  (db : Store) : Store * result SyncResponse.t :=
  sync_loop db_bool products 0 [] db.

(** ** Catalog query: [get_catalog] *)

Module Catalog.

(** The operators [get_catalog] puts in its filter mapping. *)
Inductive cond : Type :=
| Equals (v : value)
| In (vs : list value)
| Regex (pattern options : string).

(** A stored product read as a mapping from field names. *)
Definition field (sp : StoreProduct.t) (k : string) : value :=
  if String.eqb k "id" then StoreProduct.id sp
  else if String.eqb k "title" then StoreProduct.title sp
  else if String.eqb k "description" then StoreProduct.description sp
  else if String.eqb k "images" then VList (StoreProduct.images sp)
  else if String.eqb k "tags" then StoreProduct.tags sp
  else if String.eqb k "categories" then StoreProduct.categories sp
  else if String.eqb k "variants" then StoreProduct.variants sp
  else if String.eqb k "default_variant_id" then StoreProduct.default_variant_id sp
  else if String.eqb k "price" then
    match StoreProduct.price sp with NInt z => VInt z | NFloat f => VFloat f end
  else if String.eqb k "currency" then VStr (StoreProduct.currency sp)
  else if String.eqb k "available" then StoreProduct.available sp
  else VNone.

Section Query.
(** The store's regular-expression search: pattern, options, text. *)
Variable regex_search : string -> string -> string -> bool.

(** Modelled from the spec: how the store reads one entry of a filter
    mapping; an array field matches [$in] when it holds one of the
    values. *)
Definition holds (c : cond) (v : value) : bool :=
  match c with
  | Equals w => Value.eqb v w
  | In ws =>
      match v with
      | VList l => existsb (fun x => existsb (Value.eqb x) ws) l
      | _ => existsb (Value.eqb v) ws
      end
  | Regex pattern options =>
      match v with
      | VStr s => regex_search pattern options s
      | _ => false
      end
  end.

Definition matches (filt : list (string * cond)) (sp : StoreProduct.t) : bool :=
  forallb (fun kc => holds (snd kc) (field sp (fst kc))) filt.

(** [filt] as [get_catalog] builds it; an empty string is falsy. *)
Definition catalog_filter (category q : option string) : list (string * cond) :=
  [("available", Equals (VBool true))]
  ++ match category with
     | Some c => if String.eqb c "" then [] else [("categories", In [VStr c])]
     | None => []
     end
  ++ match q with
     | Some t => if String.eqb t "" then [] else [("title", Regex t "i")]
     | None => []
     end.

Definition get_catalog (category q : option string) (db : Store)
  : list StoreProduct.t :=
  Collection.get_documents (matches (catalog_filter category q)) 100
    (storeproduct db).
End Query.

End Catalog.

(** ** Checkout: [create_checkout_session] *)

Module Checkout.

(** One entry of [line_items], flattened. *)
Record LineItem : Type := mkLineItem {
  li_currency : string;
  li_name : value;
  li_images : list value;
  li_unit_amount : Z;
  li_quantity : Z
}.

(** What the payment provider returns for a session. *)
Record Session : Type := mkSession {
  session_id : string;
  session_url : string
}.

(** [float(it.unit_amount or sp.get("price", 0))]. *)
Definition item_price (it : CheckoutItem.t) (sp : StoreProduct.t) : result float :=
  match CheckoutItem.unit_amount it with
  | Some u => if Py.float_truthy u then Ok u else Num.to_float (StoreProduct.price sp)
  | None => Num.to_float (StoreProduct.price sp)
  end.

(** The loop over [payload.items], on [(line_items, amount_total)]. *)
Fixpoint items_loop (currency : string) (products : list StoreProduct.t)
  (items : list CheckoutItem.t) (line_items : list LineItem) (amount_total : float)
  : result (list LineItem * float) :=
  match items with
  | [] => Ok (line_items, amount_total)
  | it :: rest =>
      match Collection.find_one (by_id (VStr (CheckoutItem.product_id it))) products with
      | None =>
          Raise (HTTPException 404
                   ("Product " ++ CheckoutItem.product_id it ++ " not found"))
      | Some (_, sp) =>
          let? price := item_price it sp in
          let? q := Py.float_of_int (CheckoutItem.quantity it) in
          let amount_total := PrimFloat.add amount_total (PrimFloat.mul price q) in
          let? unit_amount := Py.int_of_float (PrimFloat.mul price 100%float) in
          items_loop currency products rest
            (line_items ++
               [mkLineItem currency (StoreProduct.title sp)
                  (firstn 1 (StoreProduct.images sp)) unit_amount
                  (CheckoutItem.quantity it)])
            amount_total
      end
  end.

Section Session.
Variable cfg : Config.
(** The builtin [str.upper], which follows Unicode's case mapping: a
    parameter of the model. *)
Variable upper : string -> string.
(** [stripe.checkout.Session.create] in payment mode: line items,
    success URL, cancel URL. *)
Variable stripe_create : list LineItem -> string -> string -> result Session.

Definition create_checkout_session (payload : CheckoutSessionIn.t) (db : Store)
  : Store * result Session :=
  if unset (STRIPE_API_KEY cfg)
  then (db, Raise (HTTPException 500 "Stripe not configured"))
  else
    match items_loop (CheckoutSessionIn.currency payload) (storeproduct db)
            (CheckoutSessionIn.items payload) [] 0%float with
    | Raise e => (db, Raise e)
    | Ok (line_items, amount_total) =>
        match stripe_create line_items
                (FRONTEND_URL cfg ++ "?success=true")
                (FRONTEND_URL cfg ++ "?canceled=true") with
        | Raise e => (db, Raise e)
        | Ok session =>
            let order_doc :=
              Order.mk (CheckoutSessionIn.user_id payload)
                (CheckoutSessionIn.items payload)
                (Py.round2 amount_total)
                (upper (CheckoutSessionIn.currency payload))
                "created"
                (session_id session)
                None in
            (with_order (Collection.insert_one order_doc (order db)) db,
             Ok session)
        end
    end.
End Session.

End Checkout.

(** ** Fulfillment: [stripe_webhook] *)

Module Webhook.

(** One entry of the fulfillment payload's [line_items]. *)
Record LineItem : Type := mkLineItem {
  li_product_id : string;
  li_variant_id : value;
  li_quantity : Z
}.

(** The payload of the order-creation call; the label, shipping method
    and placeholder address are constants of the source. *)
Record Payload : Type := mkPayload {
  line_items : list LineItem;
  external_id : nat;
  label : string;
  shipping_method : Z;
  send_shipping_notification : bool
}.

(** What [requests.post] returns: the status code, the body text and
    what [r.json()] gives. *)
Record Response : Type := mkResponse {
  status_code : Z;
  text : string;
  json : result value
}.

(** The acknowledgment [{"received": True}]. *)
Record Ack : Type := mkAck { received : bool }.

(** [event.data.get("object", {}).get("id")]. *)
Definition session_id_of (data : dict) : result value :=
  match Value.get_default data "object" (VDict []) with
  | VDict o => Ok (Value.get o "id")
  | _ => Raise AttributeError
  end.

(** [it.get("variant_id") or
     db["storeproduct"].find_one({"id": it.get("product_id")}).get("default_variant_id")]:
    a missing product makes the [.get] on [None] fail. *)
Definition item_variant (products : list StoreProduct.t) (it : CheckoutItem.t)
  : result value :=
  let given :=
    match CheckoutItem.variant_id it with
    | Some z => VInt z
    | None => VNone
    end in
  if Value.truthy given then Ok given
  else
    match Collection.find_one (by_id (VStr (CheckoutItem.product_id it))) products with
    | Some (_, sp) => Ok (StoreProduct.default_variant_id sp)
    | None => Raise AttributeError
    end.

Fixpoint order_line_items (products : list StoreProduct.t)
  (items : list CheckoutItem.t) (acc : list LineItem) : result (list LineItem) :=
  match items with
  | [] => Ok acc
  | it :: rest =>
      let? v := item_variant products it in
      order_line_items products rest
        (acc ++ [mkLineItem (CheckoutItem.product_id it) v (CheckoutItem.quantity it)])
  end.

Section Handler.
Variable cfg : Config.
(** [requests.post(url, headers, json)]: the call itself may raise. *)
Variable post : string -> list (string * string) -> Payload -> result Response.

Definition _printify_headers : result (list (string * string)) :=
  match PRINTIFY_API_TOKEN cfg with
  | Some tok =>
      if String.eqb tok ""
      then Raise (HTTPException 500 "PRINTIFY_API_TOKEN not set")
      else Ok [("Authorization", "Bearer " ++ tok);
               ("Content-Type", "application/json")]
  | None => Raise (HTTPException 500 "PRINTIFY_API_TOKEN not set")
  end.

(** The calls of [_create_printify_order_from_order] up to [resp]:
    nothing is written before the provider has answered. *)
Definition place_order (_id : nat) (o : Order.t) (db : Store) : result value :=
  match PRINTIFY_SHOP_ID cfg with
  | None => Raise (HTTPException 500 "PRINTIFY_SHOP_ID not set")
  | Some shop =>
      if String.eqb shop ""
      then Raise (HTTPException 500 "PRINTIFY_SHOP_ID not set")
      else
        let url := PRINTIFY_API_BASE ++ "/shops/" ++ shop ++ "/orders.json" in
        let? line_items := order_line_items (storeproduct db) (Order.items o) [] in
        let payload := mkPayload line_items _id "POD Art Shop Order" 1 false in
        let? headers := _printify_headers in
        let? r := post url headers payload in
        if negb ((status_code r =? 200) || (status_code r =? 201))
        then Raise (HTTPException (status_code r) (text r))
        else json r
  end.

Definition _create_printify_order_from_order (_id : nat) (o : Order.t) (db : Store)
  : Store * result value :=
  match place_order _id o db with
  | Raise e => (db, Raise e)
  | Ok resp =>
      match resp with
      | VDict d =>
          (with_order
             (Collection.update_id _id
                (Order.set_printify_order_id (Value.get d "id")) (order db)) db,
           Ok resp)
      | _ => (db, Raise AttributeError)
      end
  end.

Definition set_order_status (_id : nat) (st : string) (db : Store) : Store :=
  with_order (Collection.update_id _id (Order.set_status st) (order db)) db.

Definition stripe_webhook (event : StripeWebhook.t) (db : Store)
  : Store * result Ack :=
  if String.eqb (StripeWebhook.type event) "checkout.session.completed" then
    match session_id_of (StripeWebhook.data event) with
    | Raise e => (db, Raise e)
    | Ok session_id =>
        match Collection.find_one (by_session session_id) (order db) with
        | Some (_id, o) =>
            match _create_printify_order_from_order _id o db with
            | (db', Ok _) => (set_order_status _id "paid" db', Ok (mkAck true))
            | (db', Raise _) => (set_order_status _id "failed" db', Ok (mkAck true))
            end
        | None => (db, Ok (mkAck true))
        end
    end
  else (db, Ok (mkAck true)).
End Handler.

End Webhook.

(** ** Vocabulary of the specification

    The functions the documented properties are phrased with.  They are
    not part of the handlers: each one writes out a sentence of the
    specification so that it can be compared with the code. *)

Module Spec.

(** "[v/100] if [v > 10], else [v]". *)
Definition normalized_price (x : num) : result float :=
  if Num.gt10 x
  then let? f := Num.to_float x in Ok (PrimFloat.div f 100%float)
  else Num.to_float x.

(** [n] is the integer nearest to [num / den], the even one of the two
    when [num / den] lies halfway between two integers. *)
Definition nearest_even (num den n : Z) : Prop :=
  2 * Z.abs (num - n * den) <= den /\
  (2 * Z.abs (num - n * den) = den -> Z.even n = true).

(** The binary64 nearest to [n / 100] with the sign [s]: the IEEE
    quotient of the integer by 100, a signed zero for [n = 0]. *)
Definition hundredths (s : bool) (n : Z) : float :=
  match n with
  | Z.pos p =>
      SF2Prim (SFdiv prec emax (S754_finite s p 0) (S754_finite false 100 0))
  | _ => SF2Prim (S754_zero s)
  end.

(** "Rounded to 2 decimal places": [y] is [x] rounded to two decimals.
    A float whose exact value [m * 2^e] has [e < 0] goes to the
    binary64 nearest to [n / 100], where [n] is the integer nearest to
    a hundred times that exact value, ties to even; an integral float,
    a zero, an infinity and a NaN stay as they are. *)
Definition rounded2 (x y : float) : Prop :=
  match Prim2SF x with
  | S754_finite s m e =>
      if 0 <=? e then y = x
      else exists n, nearest_even (Z.pos m * 100) (2 ^ (- e)) n /\ y = hundredths s n
  | _ => y = x
  end.


(** A variant "marked default". *)
Definition marked_default (v : value) : bool :=
  match v with
  | VDict d => Value.truthy (Value.get d "is_default")
  | _ => false
  end.

(** The normalized numeric prices of the variants [sel] selects, in
    order. *)
Fixpoint normalized_prices (sel : value -> bool) (vs : list value)
  : result (list float) :=
  match vs with
  | [] => Ok []
  | VDict v :: rest =>
      match (if sel (VDict v) then Num.of_value (Value.get v "price") else None) with
      | Some x =>
          let? c := normalized_price x in
          let? cs := normalized_prices sel rest in
          Ok (c :: cs)
      | None => normalized_prices sel rest
      end
  | _ :: _ => Raise AttributeError
  end.

(** The maximum of a list of prices, starting from the initial [0]. *)
Definition max_price (cs : list float) : num := fold_left Num.max cs (NInt 0).

Definition all_variants (_ : value) : bool := true.

(** "Among variants marked default, or all variants if none marked". *)
Definition default_variants (vs : list value) : value -> bool :=
  if existsb marked_default vs then marked_default else all_variants.

(** The stored price of a product. *)
Definition stored_price (products : list StoreProduct.t) (product_id : string)
  : result float :=
  match Collection.find_one (by_id (VStr product_id)) products with
  | Some (_, sp) => Num.to_float (StoreProduct.price sp)
  | None => Raise (HTTPException 404 ("Product " ++ product_id ++ " not found"))
  end.

(** "The caller-supplied [unit_amount] whenever that field is present
    (including when it is 0), and otherwise the stored product's
    price". *)
Definition unit_price_if_present (products : list StoreProduct.t)
  (it : CheckoutItem.t) : result float :=
  match CheckoutItem.unit_amount it with
  | Some u => Ok u
  | None => stored_price products (CheckoutItem.product_id it)
  end.

(** The caller-supplied [unit_amount] when it is present and not zero,
    and otherwise the stored product's price. *)
Definition unit_price_if_nonzero (products : list StoreProduct.t)
  (it : CheckoutItem.t) : result float :=
  match CheckoutItem.unit_amount it with
  | Some u =>
      if PrimFloat.eqb u 0%float
      then stored_price products (CheckoutItem.product_id it)
      else Ok u
  | None => stored_price products (CheckoutItem.product_id it)
  end.

(** "The sum over items of (effective unit price x quantity)", added
    up in request order from [acc]. *)
Fixpoint sum_items (unit_price : CheckoutItem.t -> result float)
  (items : list CheckoutItem.t) (acc : float) : result float :=
  match items with
  | [] => Ok acc
  | it :: rest =>
      let? price := unit_price it in
      let? q := Py.float_of_int (CheckoutItem.quantity it) in
      sum_items unit_price rest (PrimFloat.add acc (PrimFloat.mul price q))
  end.

(** Every item of the request resolves to a stored product. *)
Definition resolves (products : list StoreProduct.t) (it : CheckoutItem.t) : Prop :=
  Collection.find_one (by_id (VStr (CheckoutItem.product_id it))) products <> None.

(** An item the checkout loop prices without raising: its product is
    stored, its price and quantity convert, and the price in minor
    units is an integer. *)
Definition priced (products : list StoreProduct.t) (it : CheckoutItem.t) : Prop :=
  exists i sp price q n,
    Collection.find_one (by_id (VStr (CheckoutItem.product_id it))) products
      = Some (i, sp) /\
    Checkout.item_price it sp = Ok price /\
    Py.float_of_int (CheckoutItem.quantity it) = Ok q /\
    Py.int_of_float (PrimFloat.mul price 100%float) = Ok n.

(** A record without the field [k]. *)
Fixpoint without (k : string) (d : dict) : dict :=
  match d with
  | [] => []
  | (k', v) :: d' =>
      if String.eqb k k' then without k d' else (k', v) :: without k d'
  end.

(** The price accumulator of the variants loop is the initial [0] or a
    float above zero. *)
Definition price_inv (n : num) : Prop :=
  match n with
  | NInt z => z = 0
  | NFloat g => Py.positive g
  end.

(** The documents a sync run upserts, in order: those of the records
    before the first one that raises. *)
Fixpoint upserted (db_bool : result bool) (products : list value)
  : list StoreProduct.t :=
  match products with
  | [] => []
  | VDict p :: rest =>
      if negb (Value.truthy (product_id_of p)) then upserted db_bool rest
      else
        match normalize p (product_id_of p), db_bool with
        | Ok doc, Ok _ => doc :: upserted db_bool rest
        | _, _ => []
        end
  | _ :: _ => []
  end.

(** Whether the upserts of a run look the document up: the outcome of
    the truth test when it does not raise. *)
Definition looks_up (db_bool : result bool) : bool :=
  match db_bool with
  | Ok b => b
  | Raise _ => true
  end.

(** A run of upserts on the product collection. *)
Definition upserts (b : bool) (docs : list StoreProduct.t)
  (c : list StoreProduct.t) : list StoreProduct.t :=
  fold_left (fun c doc => upsert_into b doc c) docs c.

(** Whether a product with the id [key] is stored. *)
Definition has (key : value) (c : list StoreProduct.t) : bool :=
  existsb (by_id key) c.


End Spec.

(** ** Fetching the catalog: [get_printify_products] *)

Module Printify.
Section Fetch.
Variable cfg : Config.
(** [requests.get(url, headers)]: the call itself may raise. *)
Variable get : string -> list (string * string) -> result Webhook.Response.
(** The truth test of the store handle, as in [sync_loop]. *)
Variable db_bool : result bool.

Definition get_printify_products : result value :=
  match PRINTIFY_SHOP_ID cfg with
  | None => Raise (HTTPException 500 "PRINTIFY_SHOP_ID not set")
  | Some shop =>
      if String.eqb shop ""
      then Raise (HTTPException 500 "PRINTIFY_SHOP_ID not set")
      else
        let url := PRINTIFY_API_BASE ++ "/shops/" ++ shop ++ "/products.json" in
        let? headers := Webhook._printify_headers cfg in
        let? r := get url headers in
        if negb (Webhook.status_code r =? 200)
        then Raise (HTTPException (Webhook.status_code r) (Webhook.text r))
        else
          let? data := Webhook.json r in
          match data with
          | VDict d => Ok (Value.get_default d "data" data)
          | _ => Raise AttributeError
          end
  end.

(** The endpoint [POST /api/printify/sync]: the fetch, then the loop
    over whatever the fetch returned. *)
Definition sync_endpoint (db : Store) : Store * result SyncResponse.t :=
  match get_printify_products with
  | Raise e => (db, Raise e)
  | Ok products =>
      match Value.iter products with
      | Raise e => (db, Raise e)
      | Ok records => sync_printify_products db_bool records db
      end
  end.
End Fetch.
End Printify.

(** ** Wishlist: [add_wishlist], [get_wishlist] *)

Module Wishlist.

Record WishlistIn : Type := mk {
  user_id : string;
  product_id : string
}.

(** The filter [{"user_id": user_id}]. *)
Definition by_user (user : string) (e : WishlistIn) : bool :=
  String.eqb (user_id e) user.

(** [add_wishlist]: the generic insert, then [{"status": "ok"}]. *)
Definition add_wishlist (item : WishlistIn) (wishlist : list WishlistIn)
  : list WishlistIn * string :=
  (Collection.insert_one item wishlist, "ok").

(** Modelled from the spec: [get_documents] of the absent [database.py]
    called without a limit returns all the entries the filter matches,
    in store order. *)
Definition get_wishlist (user : string) (wishlist : list WishlistIn)
  : list WishlistIn :=
  filter (by_user user) wishlist.

End Wishlist.

(** ** Vocabulary of the further properties *)

Module Derived.

(** A record the sync loop does not skip. *)
Definition has_id (p : value) : bool :=
  match p with
  | VDict d => Value.truthy (product_id_of d)
  | _ => false
  end.

(** The first truthy value of [candidates], and [last] when none is:
    what "[a], else [b], else [last]" selects. *)
Definition first_truthy (candidates : list value) (last : value) : value :=
  match find Value.truthy candidates with
  | Some v => v
  | None => last
  end.

(** A field of the record, [None] when it is missing. *)
Definition field (p : dict) (k : string) : value :=
  match Value.assoc k p with
  | Some v => v
  | None => VNone
  end.

(** The URL the images loop reads off one preview entry: [src], else
    [preview_url], else [url]. *)
Definition image_url (im : value) : value :=
  match im with
  | VDict d => first_truthy [field d "src"; field d "preview_url"] (field d "url")
  | _ => VNone
  end.

(** The id of a variant as the variants loop reads it. *)
Definition variant_id_of (v : value) : value :=
  match v with
  | VDict d => Value.or (Value.get d "id") (Value.get d "variant_id")
  | _ => VNone
  end.

(** The id of the last variant marked default, [None] without one. *)
Definition last_default (vs : list value) : value :=
  match find Spec.marked_default (rev vs) with
  | Some v => variant_id_of v
  | None => VNone
  end.

(** The last of [docs] with the id [key]. *)
Definition last_with (key : value) (docs : list StoreProduct.t)
  : option StoreProduct.t :=
  find (by_id key) (rev docs).

(** The exception a record makes the sync loop raise, if any: the one
    of its own fields, else the one of the truth test of the store
    handle, which a record with an id reaches. *)
Definition record_error (db_bool : result bool) (v : value) : option exn :=
  match v with
  | VDict p =>
      if negb (Value.truthy (product_id_of p)) then None
      else
        match normalize p (product_id_of p), db_bool with
        | Ok _, Ok _ => None
        | Ok _, Raise e => Some e
        | Raise e, _ => Some e
        end
  | _ => Some AttributeError
  end.

(** Both provider settings are set. *)
Definition configured (cfg : Config) : Prop :=
  unset (PRINTIFY_SHOP_ID cfg) = false /\ unset (PRINTIFY_API_TOKEN cfg) = false.

(** What the webhook never rewrites in an order. *)
Definition frozen (o : Order.t)
  : option string * list CheckoutItem.t * float * string * string :=
  (Order.user_id o, Order.items o, Order.amount_total o, Order.currency o,
   Order.stripe_session_id o).

(** The payment line item the checkout loop builds for an item: the
    stored product's title and first image, the price in minor units
    truncated to an integer, and the item's quantity. *)
Definition line_item_of (currency : string) (products : list StoreProduct.t)
  (it : CheckoutItem.t) (li : Checkout.LineItem) : Prop :=
  exists i sp price,
    Collection.find_one (by_id (VStr (CheckoutItem.product_id it))) products
      = Some (i, sp) /\
    Checkout.item_price it sp = Ok price /\
    Py.int_of_float (PrimFloat.mul price 100%float) = Ok (Checkout.li_unit_amount li) /\
    Checkout.li_name li = StoreProduct.title sp /\
    Checkout.li_images li = firstn 1 (StoreProduct.images sp) /\
    Checkout.li_quantity li = CheckoutItem.quantity it /\
    Checkout.li_currency li = currency.

(** The variant an order item asks for, when it names a usable one. *)
Definition explicit_variant (it : CheckoutItem.t) : option Z :=
  match CheckoutItem.variant_id it with
  | Some z => if z =? 0 then None else Some z
  | None => None
  end.

(** The fulfillment line item built for an order item: its product
    id and quantity, and as variant the one the item names when it is
    not zero, else the stored product's default variant. *)
Definition fulfillment_item_of (products : list StoreProduct.t)
  (it : CheckoutItem.t) (li : Webhook.LineItem) : Prop :=
  Webhook.li_product_id li = CheckoutItem.product_id it /\
  Webhook.li_quantity li = CheckoutItem.quantity it /\
  match explicit_variant it with
  | Some z => Webhook.li_variant_id li = VInt z
  | None =>
      exists i sp,
        Collection.find_one (by_id (VStr (CheckoutItem.product_id it))) products
          = Some (i, sp) /\
        Webhook.li_variant_id li = StoreProduct.default_variant_id sp
  end.

(** [data["object"]] is present and is not a mapping. *)
Definition malformed_object (data : dict) : bool :=
  match Value.assoc "object" data with
  | Some (VDict _) => false
  | Some _ => true
  | None => false
  end.

End Derived.

(** ** Sample data *)

Module Sample.

Definition cfg : Config :=
  mkConfig (Some "token") (Some "shop_1") (Some "sk_test") "http://localhost:3000".

Definition cfg_no_stripe : Config :=
  mkConfig (Some "token") (Some "shop_1") None "http://localhost:3000".

(** The stored product of the specification's checkout scenario. *)
Definition cat : StoreProduct.t :=
  StoreProduct.mk (VStr "p1") (VStr "Cat") VNone [] (VList []) (VList [])
    (VList [VDict [("is_default", VBool true); ("id", VInt 7); ("price", VInt 1500)]])
    (VInt 7) (NFloat 15%float) "USD" (VBool true).

Definition two_cats : CheckoutItem.t := CheckoutItem.mk "p1" None 2 None.

Definition paid_order : Order.t :=
  Order.mk None [two_cats] 30%float "USD" "created" "cs_1" None.

Definition catalog_only : Store := mkStore [cat] [].

Definition one_order : Store := mkStore [cat] [paid_order].

(** What [str.upper] does on a string of ASCII characters, such as a
    currency code: the letters a-z become A-Z. *)
Definition upper_ascii (c : ascii) : ascii :=
  let n := nat_of_ascii c in
  if (Nat.leb 97 n && Nat.leb n 122)%bool then ascii_of_nat (n - 32) else c.

Fixpoint upper (s : string) : string :=
  match s with
  | EmptyString => EmptyString
  | String c s' => String (upper_ascii c) (upper s')
  end.

Definition stripe_ok (_ : list Checkout.LineItem) (_ _ : string)
  : result Checkout.Session :=
  Ok (Checkout.mkSession "cs_1" "https://checkout.stripe.com/pay/cs_1").

Definition post_rejects (_ : string) (_ : list (string * string))
  (_ : Webhook.Payload) : result Webhook.Response :=
  Ok (Webhook.mkResponse 422 "unprocessable" (Raise ValueError)).

Definition completed (session : string) : StripeWebhook.t :=
  StripeWebhook.mk "evt_1" "checkout.session.completed"
    [("object", VDict [("id", VStr session)])].

End Sample.

(** * Properties *)

(** ** Values *)

Section ValueInduction.
Variable P : value -> Prop.
Hypothesis HNone : P VNone.
Hypothesis HBool : forall b, P (VBool b).
Hypothesis HInt : forall z, P (VInt z).
Hypothesis HFloat : forall f, P (VFloat f).
Hypothesis HStr : forall s, P (VStr s).
Hypothesis HList : forall l, Forall P l -> P (VList l).
Hypothesis HDict : forall d, Forall (fun kv => P (snd kv)) d -> P (VDict d).

Fixpoint value_nested_ind (v : value) : P v :=
  match v with
  | VNone => HNone
  | VBool b => HBool b
  | VInt z => HInt z
  | VFloat f => HFloat f
  | VStr s => HStr s
  | VList l =>
      HList l
        ((fix go (l : list value) : Forall P l :=
            match l with
            | [] => Forall_nil P
            | x :: l' => Forall_cons x (value_nested_ind x) (go l')
            end) l)
  | VDict d =>
      HDict d
        ((fix go (d : dict) : Forall (fun kv => P (snd kv)) d :=
            match d with
            | [] => Forall_nil _
            | kv :: d' => Forall_cons kv (value_nested_ind (snd kv)) (go d')
            end) d)
  end.
End ValueInduction.

Lemma value_eqb_eq (a b : value) : Value.eqb a b = true <-> a = b.
Proof.
  revert b. induction a as [ | x | x | x | x | l IH | d IH ] using value_nested_ind;
    intros [ | y | y | y | y | l' | d' ]; cbn [Value.eqb];
    try (split; [discriminate | intros H; discriminate H]);
    try (split; [reflexivity | reflexivity]).
  - rewrite Bool.eqb_true_iff. split; congruence.
  - rewrite Z.eqb_eq. split; congruence.
  - rewrite FloatAxioms.Leibniz.eqb_spec. split; congruence.
  - rewrite String.eqb_eq. split; congruence.
  - revert l'. induction IH as [ | u l Hu _ IHl ]; intros [ | w l'].
    + split; reflexivity.
    + split; discriminate.
    + split; discriminate.
    + rewrite andb_true_iff, Hu, IHl. split.
      * intros [-> E]. injection E as ->. reflexivity.
      * intros E. injection E as -> ->. split; reflexivity.
  - revert d'. induction IH as [ | [k1 u] d Hu _ IHd ]; intros [ | [k2 w] d'].
    + split; reflexivity.
    + split; discriminate.
    + split; discriminate.
    + cbn [snd] in Hu.
      rewrite !andb_true_iff, String.eqb_eq, Hu, IHd. split.
      * intros [[-> ->] E]. injection E as ->. reflexivity.
      * intros E. injection E as -> -> ->. repeat split; reflexivity.
Qed.

Lemma value_eqb_refl (a : value) : Value.eqb a a = true.
Proof. apply value_eqb_eq. reflexivity. Qed.

Lemma value_eqb_neq (a b : value) : Value.eqb a b = false <-> a <> b.
Proof.
  split.
  - intros H E. apply value_eqb_eq in E. congruence.
  - intros H. destruct (Value.eqb a b) eqn:E; [ | reflexivity].
    apply value_eqb_eq in E. contradiction.
Qed.

(** ** The builtins on sample inputs *)

Example round2_down : Py.round2 2.675%float = 2.67%float.
Proof. vm_compute. reflexivity. Qed.

Example round2_tie_to_even : Py.round2 0.125%float = 0.12%float.
Proof. vm_compute. reflexivity. Qed.

Example round2_tie_up : Py.round2 0.375%float = 0.38%float.
Proof. vm_compute. reflexivity. Qed.

Example round2_integral : Py.round2 15%float = 15%float.
Proof. vm_compute. reflexivity. Qed.

Example round2_infinity : Py.round2 infinity = infinity.
Proof. vm_compute. reflexivity. Qed.

Example int_of_float_truncates :
  Py.int_of_float (PrimFloat.mul 0.29%float 100%float) = Ok 28.
Proof. vm_compute. reflexivity. Qed.

Example int_of_float_minor_units :
  Py.int_of_float (PrimFloat.mul 15%float 100%float) = Ok 1500.
Proof. vm_compute. reflexivity. Qed.

Example int_of_float_nan : Py.int_of_float nan = Raise ValueError.
Proof. vm_compute. reflexivity. Qed.

Example float_of_int_rounds : Py.float_of_int (2 ^ 53 + 1) = Ok 9007199254740992%float.
Proof. vm_compute. reflexivity. Qed.

Example float_of_int_overflow : Py.float_of_int (10 ^ 400) = Raise OverflowError.
Proof. vm_compute. reflexivity. Qed.

Example nan_is_truthy : Value.truthy (VFloat nan) = true.
Proof. vm_compute. reflexivity. Qed.

Example zero_is_falsy :
  map Value.truthy [VInt 0; VFloat 0%float; VStr ""; VNone; VList []; VDict []]
  = [false; false; false; false; false; false].
Proof. vm_compute. reflexivity. Qed.

(** ** Floats: zero, sign and order *)

Lemma Prim2SF_zero : Prim2SF 0%float = S754_zero false.
Proof. reflexivity. Qed.

Lemma float_truthy_false_zero (f : float) :
  Py.float_truthy f = false -> exists s, Prim2SF f = S754_zero s.
Proof.
  unfold Py.float_truthy. rewrite FloatAxioms.eqb_spec, Prim2SF_zero.
  destruct (Prim2SF f) as [s | s | | s m e]; cbn; try discriminate.
  - eauto.
  - destruct s; discriminate.
  - destruct s; discriminate.
Qed.

Lemma ltb10_zero (f : float) :
  Py.float_truthy f = false -> PrimFloat.ltb 10%float f = false.
Proof.
  intros H. destruct (float_truthy_false_zero f H) as [s Hs].
  rewrite ltb_spec, Hs. reflexivity.
Qed.

Lemma positive_truthy (f : float) : Py.positive f -> Py.float_truthy f = true.
Proof.
  unfold Py.positive, Py.float_truthy.
  rewrite FloatAxioms.eqb_spec, Prim2SF_zero.
  destruct (Prim2SF f) as [s | [|] | | [|] m e]; cbn; intros H;
    try contradiction; reflexivity.
Qed.

Lemma gt_zero_positive (f : float) : Py.float_gt_int f 0 = true -> Py.positive f.
Proof.
  unfold Py.float_gt_int, Py.positive.
  destruct (Prim2SF f) as [s | [|] | | [|] m e]; cbn -[Z.mul Z.pow Z.ltb];
    try discriminate; try exact (fun _ => I).
  unfold Py.signed.
  destruct (0 <=? e) eqn:He; intros H; apply Z.ltb_lt in H.
  - apply Z.leb_le in He. pose proof (Z.pow_pos_nonneg 2 e ltac:(lia) He). nia.
  - lia.
Qed.

Lemma ltb_positive (g f : float) :
  Py.positive g -> PrimFloat.ltb g f = true -> Py.positive f.
Proof.
  unfold Py.positive. rewrite ltb_spec. unfold SFltb.
  destruct (Prim2SF g) as [s | [|] | | [|] m e]; cbn; try contradiction; intros _;
    destruct (Prim2SF f) as [s' | [|] | | [|] m' e']; cbn;
    try discriminate; try exact (fun _ => I).
Qed.

Lemma float_neq (f g : float) : Prim2SF f <> Prim2SF g -> f <> g.
Proof. intros H E. apply H. rewrite E. reflexivity. Qed.

Lemma NFloat_neq (f g : float) : Prim2SF f <> Prim2SF g -> NFloat f <> NFloat g.
Proof.
  intros H E. apply H.
  change (match NFloat f with NFloat x => Prim2SF x | NInt _ => S754_nan end =
          match NFloat g with NFloat x => Prim2SF x | NInt _ => S754_nan end).
  rewrite E. reflexivity.
Qed.

(** ** Sync: the price of a product *)

Lemma variant_price_eq (x : num) : variant_price x = Spec.normalized_price x.
Proof.
  unfold variant_price, Spec.normalized_price.
  destruct x as [z | f]; cbn [Num.truthy Num.gt10].
  - destruct (z =? 0) eqn:E; cbn [negb andb]; [ | reflexivity].
    apply Z.eqb_eq in E. subst z. reflexivity.
  - destruct (Py.float_truthy f) eqn:E; cbn [andb]; [reflexivity | ].
    rewrite (ltb10_zero f E). reflexivity.
Qed.

Lemma max_inv (n : num) (c : float) : Spec.price_inv n -> Spec.price_inv (Num.max n c).
Proof.
  destruct n as [z | g]; cbn [Spec.price_inv Num.max].
  - intros ->. destruct (Py.float_gt_int c 0) eqn:E; cbn [Spec.price_inv].
    + apply gt_zero_positive. exact E.
    + reflexivity.
  - intros Hg. destruct (PrimFloat.ltb g c) eqn:E; cbn [Spec.price_inv].
    + apply (ltb_positive g c Hg E).
    + exact Hg.
Qed.

Lemma price_or_zero (n : num) :
  Spec.price_inv n -> (if Num.truthy n then n else NInt 0) = n.
Proof.
  destruct n as [z | g]; cbn [Spec.price_inv Num.truthy].
  - intros ->. reflexivity.
  - intros Hg. rewrite (positive_truthy g Hg). reflexivity.
Qed.

Lemma max_price_inv (cs : list float) (n : num) :
  Spec.price_inv n -> Spec.price_inv (fold_left Num.max cs n).
Proof.
  revert n. induction cs as [ | c cs IH]; intros n Hn; cbn [fold_left].
  - exact Hn.
  - apply IH, max_inv, Hn.
Qed.

(** The loop folds [max] over the normalized price of every variant
    that has a numeric price, whatever its [is_default] flag. *)
Lemma variants_loop_prices (vs : list value) (dv dv' : value) (price price' : num) :
  variants_loop vs (dv, price) = Ok (dv', price') ->
  exists cs,
    Spec.normalized_prices Spec.all_variants vs = Ok cs /\
    price' = fold_left Num.max cs price.
Proof.
  revert dv price. induction vs as [ | v vs IH]; intros dv price H.
  - injection H as _ <-. exists []. split; reflexivity.
  - cbn [variants_loop] in H.
    destruct v as [ | | | | | | d]; try discriminate H.
    cbn [variant_step Spec.normalized_prices Spec.all_variants fst snd] in *.
    destruct (Num.of_value (Value.get d "price")) as [x | ].
    + rewrite variant_price_eq in H.
      destruct (Spec.normalized_price x) as [c | e]; [ | discriminate H].
      cbn [rbind] in H |- *.
      destruct (IH _ _ H) as (cs & Hcs & Hp).
      exists (c :: cs). rewrite Hcs. split; [reflexivity | exact Hp].
    + cbn [rbind] in H. exact (IH _ _ H).
Qed.

(** What [normalize] stores as the price, in terms of its loop. *)
Lemma normalize_price (p : dict) (product_id : value) (doc : StoreProduct.t) :
  normalize p product_id = Ok doc ->
  exists vs dv price,
    Value.iter (Value.or (Value.get p "variants") (VList [])) = Ok vs /\
    variants_loop vs (VNone, NInt 0) = Ok (dv, price) /\
    StoreProduct.price doc = Num.round2 (if Num.truthy price then price else NInt 0).
Proof.
  unfold normalize. intros H.
  destruct (Value.iter (Value.or (Value.or (Value.get p "images") (Value.get p "files"))
                          (VList []))) as [pv | e]; [ | discriminate H].
  cbn [rbind] in H.
  destruct (collect_images pv []) as [imgs | e]; [ | discriminate H].
  cbn [rbind] in H.
  destruct (Value.iter (Value.or (Value.get p "variants") (VList []))) as [vs | e];
    [ | discriminate H].
  cbn [rbind] in H.
  destruct (variants_loop vs (VNone, NInt 0)) as [[dv price] | e] eqn:Hloop;
    [ | discriminate H].
  cbn [rbind] in H. injection H as <-.
  exists vs, dv, price.
  split; [reflexivity | split; [exact Hloop | reflexivity]].
Qed.

(** ** Rounding to two decimals *)

Lemma div_half_even_nearest (num den : Z) :
  0 < den -> Spec.nearest_even num den (Py.div_half_even num den).
Proof.
  intros Hden. unfold Spec.nearest_even, Py.div_half_even.
  pose proof (Z.div_mod num den ltac:(lia)) as Hdm.
  pose proof (Z.mod_pos_bound num den Hden) as Hr.
  set (q := num / den) in *. set (r := num mod den) in *. clearbody q r.
  destruct (2 * r ?= den) eqn:C.
  - apply Z.compare_eq in C.
    destruct (Z.even q) eqn:Eq.
    + replace (num - q * den) with r by lia. split; [lia | intros _; exact Eq].
    + replace (num - (q + 1) * den) with (r - den) by lia.
      split; [lia | intros _].
      rewrite Z.even_add, Eq. reflexivity.
  - rewrite Z.compare_lt_iff in C.
    replace (num - q * den) with r by lia. split; [lia | intros H; lia].
  - rewrite Z.compare_gt_iff in C.
    replace (num - (q + 1) * den) with (r - den) by lia.
    split; [lia | intros H; lia].
Qed.

Lemma nearest_even_unique (num den n n' : Z) :
  0 < den ->
  Spec.nearest_even num den n -> Spec.nearest_even num den n' -> n = n'.
Proof.
  unfold Spec.nearest_even. intros Hden [H1 E1] [H2 E2].
  assert (n' = n \/ n' = n + 1 \/ n' = n - 1) as [-> | [-> | ->]] by nia.
  - reflexivity.
  - assert (Z.even n = true) as Hn by (apply E1; nia).
    assert (Z.even (n + 1) = true) as Hn' by (apply E2; nia).
    rewrite Z.even_add, Hn in Hn'. discriminate Hn'.
  - assert (Z.even n = true) as Hn by (apply E1; nia).
    assert (Z.even (n - 1) = true) as Hn' by (apply E2; nia).
    rewrite Z.even_sub, Hn in Hn'. discriminate Hn'.
Qed.

(** [round(f, 2)] rounds to two decimals, and is the only float that
    does. *)
Lemma round2_rounded (f : float) : Spec.rounded2 f (Py.round2 f).
Proof.
  unfold Spec.rounded2, Py.round2, Spec.hundredths.
  destruct (Prim2SF f) as [s | s | | s m e]; try reflexivity.
  destruct (0 <=? e) eqn:He; [reflexivity | ].
  apply Z.leb_gt in He.
  exists (Py.div_half_even (Z.pos m * 100) (2 ^ (- e))).
  split; [ | reflexivity].
  apply div_half_even_nearest. apply Z.pow_pos_nonneg; lia.
Qed.

Lemma rounded2_unique (f y : float) : Spec.rounded2 f y -> y = Py.round2 f.
Proof.
  unfold Spec.rounded2, Py.round2, Spec.hundredths.
  destruct (Prim2SF f) as [s | s | | s m e]; try (intros H; exact H).
  destruct (0 <=? e) eqn:He; [intros H; exact H | ].
  apply Z.leb_gt in He. intros (n & Hn & ->).
  assert (0 < 2 ^ (- e)) as Hden by (apply Z.pow_pos_nonneg; lia).
  rewrite (nearest_even_unique _ _ _ _ Hden Hn
             (div_half_even_nearest (Z.pos m * 100) (2 ^ (- e)) Hden)).
  reflexivity.
Qed.




(** The scenario of the specification: one product with one default
    variant priced 1500 is stored with the price 15.0. *)
Example sync_scenario_price :
  normalize [("id", VStr "p1"); ("title", VStr "Cat");
             ("variants", VList [VDict [("is_default", VBool true);
                                        ("price", VInt 1500)]])] (VStr "p1") =
  Ok (StoreProduct.mk (VStr "p1") (VStr "Cat") VNone [] (VList []) (VList [])
        (VList [VDict [("is_default", VBool true); ("price", VInt 1500)]])
        VNone (NFloat 15%float) "USD" (VBool true)).
Proof. vm_compute. reflexivity. Qed.

(** Rounding is not the identity, a truncation or a rounding half up:
    12.345000000000001 goes up to 12.35, 2.675 (below the tie in
    binary) down to 2.67, and the exact tie 0.125 to the even 0.12. *)
Example rounded2_samples :
  Spec.rounded2 12.345000000000001%float 12.35%float /\
  Spec.rounded2 2.675%float 2.67%float /\
  Spec.rounded2 0.125%float 0.12%float /\
  ~ Spec.rounded2 12.345000000000001%float 12.345000000000001%float /\
  ~ Spec.rounded2 0.125%float 0.13%float.
Proof.
  assert (forall x y, Py.round2 x = y -> Spec.rounded2 x y) as Hyes.
  { intros x y <-. apply round2_rounded. }
  assert (forall x y, Prim2SF (Py.round2 x) <> Prim2SF y -> ~ Spec.rounded2 x y) as Hno.
  { intros x y Hne H. apply rounded2_unique in H. apply Hne. rewrite H. reflexivity. }
  repeat split.
  - apply Hyes. vm_compute. reflexivity.
  - apply Hyes. vm_compute. reflexivity.
  - apply Hyes. vm_compute. reflexivity.
  - apply Hno. vm_compute. discriminate.
  - apply Hno. vm_compute. discriminate.
Qed.

(** C4 as stated fails: a default variant priced 1500 and an unmarked
    one priced 2500 store 25.0, not the 15.0 of the default variant. *)
Lemma default_only_price_counterexample :
  let vs := [VDict [("is_default", VBool true); ("price", VInt 1500)];
             VDict [("price", VInt 2500)]] in
  let p := [("id", VStr "p1"); ("variants", VList vs)] in
  existsb Spec.marked_default vs = true /\
  exists doc cs,
    normalize p (VStr "p1") = Ok doc /\
    Spec.normalized_prices (Spec.default_variants vs) vs = Ok cs /\
    StoreProduct.price doc = NFloat 25%float /\
    Num.round2 (Spec.max_price cs) = NFloat 15%float /\
    StoreProduct.price doc <> Num.round2 (Spec.max_price cs).
Proof.
  cbv zeta. split; [reflexivity | ].
  eexists. exists [15%float].
  split; [vm_compute; reflexivity | ].
  split; [vm_compute; reflexivity | ].
  split; [reflexivity | ].
  split; [vm_compute; reflexivity | ].
  vm_compute. apply NFloat_neq. vm_compute. discriminate.
Qed.

(** C4, amended: the stored price is the maximum, from the initial 0,
    of the normalized numeric prices of all the variants, whether
    marked default or not, rounded to 2 decimal places. *)
Theorem stored_price_max_over_all_variants
  (p : dict) (product_id : value) (doc : StoreProduct.t) :
  normalize p product_id = Ok doc ->
  exists vs cs,
    Value.iter (Value.or (Value.get p "variants") (VList [])) = Ok vs /\
    Spec.normalized_prices Spec.all_variants vs = Ok cs /\
    StoreProduct.price doc = Num.round2 (Spec.max_price cs).
Proof.
  intros H.
  destruct (normalize_price p product_id doc H) as (vs & dv & price & Hvs & Hloop & Hp).
  destruct (variants_loop_prices vs _ _ _ _ Hloop) as (cs & Hcs & Hfold).
  exists vs, cs. split; [exact Hvs | split; [exact Hcs | ]].
  rewrite Hp, price_or_zero; [rewrite Hfold; reflexivity | ].
  rewrite Hfold. apply max_price_inv. reflexivity.
Qed.

Lemma stored_price_max_over_all_variants_witness :
  let vs := [VDict [("is_default", VBool true); ("price", VInt 1500)];
             VDict [("price", VInt 2500)]] in
  let p := [("id", VStr "p1"); ("variants", VList vs)] in
  let doc :=
    StoreProduct.mk (VStr "p1") (VStr "Untitled") VNone [] (VList []) (VList [])
      (VList vs) VNone (NFloat 25%float) "USD" (VBool true) in
  normalize p (VStr "p1") = Ok doc /\
  exists vs' cs,
    Value.iter (Value.or (Value.get p "variants") (VList [])) = Ok vs' /\
    Spec.normalized_prices Spec.all_variants vs' = Ok cs /\
    StoreProduct.price doc = Num.round2 (Spec.max_price cs).
Proof.
  cbv zeta. split.
  - vm_compute. reflexivity.
  - apply (stored_price_max_over_all_variants _ (VStr "p1")). vm_compute. reflexivity.
Defined.

(** ** The store: first match and update *)

Section CollectionFacts.
Context {A : Type}.
Implicit Types (filt : A -> bool) (c : list A).

Lemma find_from_None filt c (i : nat) :
  Collection.find_from i filt c = None <-> existsb filt c = false.
Proof.
  revert i. induction c as [ | x c IH]; intros i; cbn.
  - split; reflexivity.
  - destruct (filt x); cbn; [split; discriminate | apply IH].
Qed.

Lemma find_one_None filt c :
  Collection.find_one filt c = None <-> existsb filt c = false.
Proof. apply find_from_None. Qed.

Lemma find_from_Some filt c (i j : nat) (x : A) :
  Collection.find_from i filt c = Some (j, x) ->
  (i <= j)%nat /\ nth_error c (j - i) = Some x /\ filt x = true.
Proof.
  revert i. induction c as [ | y c IH]; intros i; cbn; [discriminate | ].
  destruct (filt y) eqn:E.
  - intros H. injection H as <- <-. rewrite Nat.sub_diag. auto.
  - intros H. destruct (IH _ H) as (Hle & Hnth & Hx).
    split; [lia | split; [ | exact Hx]].
    replace (j - i)%nat with (S (j - S i)) by lia. exact Hnth.
Qed.

Lemma find_one_Some filt c (j : nat) (x : A) :
  Collection.find_one filt c = Some (j, x) ->
  nth_error c j = Some x /\ filt x = true.
Proof.
  intros H. destruct (find_from_Some _ _ _ _ _ H) as (_ & Hnth & Hx).
  rewrite Nat.sub_0_r in Hnth. auto.
Qed.

Lemma update_id_nth (i : nat) (set : A -> A) c (x : A) :
  nth_error c i = Some x ->
  nth_error (Collection.update_id i set c) i = Some (set x).
Proof.
  revert i. induction c as [ | y c IH]; intros [ | i]; cbn; try discriminate.
  - intros H. injection H as ->. reflexivity.
  - apply IH.
Qed.

Lemma update_id_other (i j : nat) (set : A -> A) c :
  i <> j -> nth_error (Collection.update_id i set c) j = nth_error c j.
Proof.
  revert i j. induction c as [ | y c IH]; intros [ | i] [ | j] H; cbn;
    try reflexivity; try contradiction.
  apply IH. congruence.
Qed.

Lemma update_id_length (i : nat) (set : A -> A) c :
  List.length (Collection.update_id i set c) = List.length c.
Proof.
  revert i. induction c as [ | y c IH]; intros [ | i]; cbn; try reflexivity.
  rewrite IH. reflexivity.
Qed.

Lemma get_documents_spec filt (limit : nat) c :
  Forall (fun x => filt x = true) (Collection.get_documents filt limit c) /\
  (List.length (Collection.get_documents filt limit c) <= limit)%nat.
Proof.
  unfold Collection.get_documents. split.
  - apply Forall_forall. intros x Hx.
    apply (proj1 (filter_In filt x c)).
    revert Hx. generalize (filter filt c) as l. intros l. revert limit.
    induction l as [ | y l IH]; intros [ | n]; cbn; try contradiction.
    intros [-> | H]; [left; reflexivity | right; exact (IH _ H)].
  - apply firstn_le_length.
Qed.
End CollectionFacts.

(** ** Sync: upsert by product id *)

Lemma by_id_true (k : value) (sp : StoreProduct.t) :
  by_id k sp = true <-> StoreProduct.id sp = k.
Proof. apply value_eqb_eq. Qed.

Lemma by_id_self (d : StoreProduct.t) : by_id (StoreProduct.id d) d = true.
Proof. apply value_eqb_refl. Qed.

Lemma upsert_into_cases (d : StoreProduct.t) (c : list StoreProduct.t) :
  upsert_into true d c =
  if Spec.has (StoreProduct.id d) c
  then Collection.update_one (by_id (StoreProduct.id d)) (fun _ => d) c
  else (c ++ [d])%list.
Proof.
  unfold upsert_into, existing, Spec.has, Collection.insert_one.
  destruct (Collection.find_one (by_id (StoreProduct.id d)) c) as [r | ] eqn:E.
  - destruct (existsb (by_id (StoreProduct.id d)) c) eqn:E'; [reflexivity | ].
    apply find_one_None in E'. congruence.
  - apply find_one_None in E. rewrite E. reflexivity.
Qed.












Lemma find_upsert_self (d : StoreProduct.t) (c : list StoreProduct.t) :
  find (by_id (StoreProduct.id d)) (upsert_into true d c) = Some d.
Proof.
  rewrite upsert_into_cases. unfold Spec.has.
  induction c as [ | x c IH]; cbn [existsb find app Collection.update_one].
  - rewrite by_id_self. reflexivity.
  - destruct (by_id (StoreProduct.id d) x) eqn:E; cbn [orb find].
    + rewrite by_id_self. reflexivity.
    + destruct (existsb (by_id (StoreProduct.id d)) c);
        cbn [find app] in *; rewrite E; exact IH.
Qed.

Lemma find_upsert_other (k : value) (e : StoreProduct.t) (c : list StoreProduct.t) :
  StoreProduct.id e <> k ->
  find (by_id k) (upsert_into true e c) = find (by_id k) c.
Proof.
  intros Hne. rewrite upsert_into_cases. unfold Spec.has.
  assert (by_id k e = false) as He by (apply value_eqb_neq; exact Hne).
  induction c as [ | x c IH]; cbn [existsb find app Collection.update_one].
  - rewrite He. reflexivity.
  - destruct (by_id (StoreProduct.id e) x) eqn:E; cbn [orb find].
    + rewrite He. apply by_id_true in E.
      assert (by_id k x = false) as -> by (apply value_eqb_neq; congruence).
      reflexivity.
    + destruct (existsb (by_id (StoreProduct.id e)) c);
        cbn [find app] in *; rewrite IH; reflexivity.
Qed.




(** The store a sync run leaves and the response it returns, in terms
    of the documents it upserts. *)
Lemma sync_loop_store (db_bool : result bool) (products : list value) (synced : Z)
  (saved_docs : list StoreProduct.t) (db : Store) :
  fst (sync_loop db_bool products synced saved_docs db) =
  with_storeproduct
    (Spec.upserts (Spec.looks_up db_bool) (Spec.upserted db_bool products)
       (storeproduct db)) db.
Proof.
  revert synced saved_docs db.
  induction products as [ | p products IH]; intros synced saved_docs db.
  - destruct db. reflexivity.
  - cbn [sync_loop Spec.upserted].
    destruct p as [ | | | | | | p]; try (destruct db; reflexivity).
    destruct (negb (Value.truthy (product_id_of p))); [apply IH | ].
    destruct (normalize p (product_id_of p)) as [doc | e];
      [ | destruct db; reflexivity].
    destruct db_bool as [b | e]; [ | destruct db; reflexivity].
    rewrite IH. destruct db. reflexivity.
Qed.


(** Upserting keeps ids unique. *)
Lemma keys_update (d : StoreProduct.t) (c : list StoreProduct.t) :
  map StoreProduct.id
    (Collection.update_one (by_id (StoreProduct.id d)) (fun _ => d) c) =
  map StoreProduct.id c.
Proof.
  induction c as [ | x c IH]; cbn [map Collection.update_one]; [reflexivity | ].
  destruct (by_id (StoreProduct.id d) x) eqn:E; cbn [map].
  - apply by_id_true in E. rewrite E. reflexivity.
  - rewrite IH. reflexivity.
Qed.







(** A store handle that refuses its truth test stops the run at the
    first record with an id, before anything is stored. *)
Example sync_with_refusing_handle :
  sync_printify_products (Raise NotImplementedError)
    [VDict [("title", VStr "No id")]; VDict [("id", VStr "p1"); ("title", VStr "Cat")]]
    Sample.one_order =
  (Sample.one_order, Raise NotImplementedError).
Proof. reflexivity. Qed.

(** ** Sync: records without a usable id *)

Lemma sync_loop_app (db_bool : result bool) (pre rest : list value) (synced : Z)
  (saved_docs : list StoreProduct.t) (db : Store) :
  sync_loop db_bool (pre ++ rest) synced saved_docs db =
  match sync_loop db_bool pre synced saved_docs db with
  | (db', Ok r) => sync_loop db_bool rest (SyncResponse.synced r) (SyncResponse.products r) db'
  | (db', Raise e) => (db', Raise e)
  end.
Proof.
  revert synced saved_docs db.
  induction pre as [ | p pre IH]; intros synced saved_docs db; [reflexivity | ].
  cbn [app sync_loop].
  destruct p as [ | | | | | | p]; try reflexivity.
  destruct (negb (Value.truthy (product_id_of p))); [apply IH | ].
  destruct (normalize p (product_id_of p)) as [doc | e]; [ | reflexivity].
  destruct db_bool as [b | e]; [apply IH | reflexivity].
Qed.

Lemma sync_loop_skip (db_bool : result bool) (p : dict) (rest : list value) (synced : Z)
  (saved_docs : list StoreProduct.t) (db : Store) :
  Value.truthy (product_id_of p) = false ->
  sync_loop db_bool (VDict p :: rest) synced saved_docs db =
  sync_loop db_bool rest synced saved_docs db.
Proof. intros H. cbn [sync_loop]. rewrite H. reflexivity. Qed.

Lemma sync_skip (db_bool : result bool) (pre post : list value) (p : dict) (db : Store) :
  Value.truthy (product_id_of p) = false ->
  sync_printify_products db_bool (pre ++ VDict p :: post) db =
  sync_printify_products db_bool (pre ++ post) db.
Proof.
  intros H. unfold sync_printify_products. rewrite !sync_loop_app.
  destruct (sync_loop db_bool pre 0 [] db) as [db' [r | e]]; [ | reflexivity].
  apply sync_loop_skip, H.
Qed.

Lemma product_id_falsy (p : dict) :
  Value.truthy (Value.get p "id") = false ->
  Value.truthy (Value.get p "_id") = false ->
  Value.truthy (product_id_of p) = false.
Proof.
  intros H1 H2. unfold product_id_of, Value.or. rewrite H1. exact H2.
Qed.

Lemma get_missing (p : dict) (k : string) :
  Value.assoc k p = None -> Value.get p k = VNone.
Proof. intros H. unfold Value.get, Value.get_default. rewrite H. reflexivity. Qed.

Lemma assoc_without (k : string) (p : dict) : Value.assoc k (Spec.without k p) = None.
Proof.
  induction p as [ | [k' v] p IH]; cbn [Spec.without Value.assoc]; [reflexivity | ].
  destruct (String.eqb k k') eqn:E; [exact IH | ].
  cbn [Value.assoc]. rewrite E. exact IH.
Qed.

Lemma assoc_without_other (k k' : string) (p : dict) :
  k <> k' -> Value.assoc k' (Spec.without k p) = Value.assoc k' p.
Proof.
  intros Hne. induction p as [ | [k0 v] p IH]; cbn [Spec.without Value.assoc];
    [reflexivity | ].
  destruct (String.eqb k k0) eqn:E.
  - apply String.eqb_eq in E. subst k0.
    destruct (String.eqb k' k) eqn:E'; [ | exact IH].
    apply String.eqb_eq in E'. congruence.
  - cbn [Value.assoc]. rewrite IH. reflexivity.
Qed.

(** C7: a raw product record missing both [id] and [_id] is skipped:
    the run stores, counts and returns exactly what it does on the
    list without the record, and goes on with the records after it. *)
Theorem sync_skips_record_without_id (db_bool : result bool)
  (pre post : list value) (p : dict) (db : Store) :
  Value.assoc "id" p = None ->
  Value.assoc "_id" p = None ->
  sync_printify_products db_bool (pre ++ VDict p :: post) db =
  sync_printify_products db_bool (pre ++ post) db.
Proof.
  intros H1 H2. apply sync_skip, product_id_falsy.
  - rewrite (get_missing p "id" H1). reflexivity.
  - rewrite (get_missing p "_id" H2). reflexivity.
Qed.

Lemma sync_skips_record_without_id_witness :
  let p1 := VDict [("id", VStr "p1"); ("title", VStr "Cat")] in
  let p2 := VDict [("_id", VStr "p2"); ("name", VStr "Dog")] in
  let nameless := [("title", VStr "No id"); ("visible", VBool true)] in
  let db := mkStore [] [] in
  sync_printify_products (Ok true) ([p1] ++ VDict nameless :: [p2]) db =
  sync_printify_products (Ok true) ([p1] ++ [p2]) db /\
  SyncResponse.synced
    match snd (sync_printify_products (Ok true) ([p1] ++ VDict nameless :: [p2]) db) with
    | Ok r => r
    | Raise _ => SyncResponse.mk (-1) []
    end = 2.
Proof.
  cbv zeta. split.
  - apply sync_skips_record_without_id; reflexivity.
  - vm_compute. reflexivity.
Defined.

(** C10: a record whose [id] and [_id] are both present but falsy is
    treated as if both were missing: the run is the one on the record
    with the two fields removed, and the one on the list without the
    record. *)
Theorem sync_skips_record_with_falsy_id (db_bool : result bool)
  (pre post : list value) (p : dict) (a b : value) (db : Store) :
  Value.assoc "id" p = Some a ->
  Value.assoc "_id" p = Some b ->
  Value.truthy a = false ->
  Value.truthy b = false ->
  sync_printify_products db_bool (pre ++ VDict p :: post) db =
  sync_printify_products db_bool
    (pre ++ VDict (Spec.without "id" (Spec.without "_id" p)) :: post) db /\
  sync_printify_products db_bool (pre ++ VDict p :: post) db =
  sync_printify_products db_bool (pre ++ post) db.
Proof.
  intros Ha Hb Hfa Hfb.
  assert (sync_printify_products db_bool (pre ++ VDict p :: post) db =
          sync_printify_products db_bool (pre ++ post) db) as E.
  { apply sync_skip, product_id_falsy.
    - unfold Value.get, Value.get_default. rewrite Ha. exact Hfa.
    - unfold Value.get, Value.get_default. rewrite Hb. exact Hfb. }
  split; [ | exact E].
  rewrite E. symmetry. apply sync_skip, product_id_falsy.
  - rewrite get_missing; [reflexivity | apply assoc_without].
  - rewrite get_missing; [reflexivity | ].
    rewrite assoc_without_other by discriminate. apply assoc_without.
Qed.

Lemma sync_skips_record_with_falsy_id_witness :
  let p1 := VDict [("id", VStr "p1"); ("title", VStr "Cat")] in
  let falsy := [("id", VStr ""); ("_id", VInt 0); ("title", VStr "Ghost")] in
  let db := mkStore [] [] in
  sync_printify_products (Ok true) ([p1] ++ VDict falsy :: []) db =
  sync_printify_products (Ok true)
    ([p1] ++ VDict (Spec.without "id" (Spec.without "_id" falsy)) :: []) db /\
  sync_printify_products (Ok true) ([p1] ++ VDict falsy :: []) db =
  sync_printify_products (Ok true) ([p1] ++ []) db.
Proof.
  cbv zeta.
  apply (sync_skips_record_with_falsy_id _ _ _ _ (VStr "") (VInt 0)); reflexivity.
Defined.

(** ** Catalog query *)

(** C9: every product a catalog query returns has [available = true],
    and at most 100 products are returned, whatever the category and
    text filters. *)
Theorem catalog_available_and_capped
  (regex_search : string -> string -> string -> bool)
  (category q : option string) (db : Store) :
  Forall (fun sp => StoreProduct.available sp = VBool true)
    (Catalog.get_catalog regex_search category q db) /\
  (List.length (Catalog.get_catalog regex_search category q db) <= 100)%nat.
Proof.
  unfold Catalog.get_catalog.
  destruct (get_documents_spec
              (Catalog.matches regex_search (Catalog.catalog_filter category q))
              100 (storeproduct db)) as [Hall Hlen].
  split; [ | exact Hlen].
  apply Forall_forall. intros sp Hsp.
  apply (proj1 (Forall_forall _ _) Hall) in Hsp.
  unfold Catalog.matches, Catalog.catalog_filter in Hsp.
  cbn [app forallb fst snd Catalog.holds] in Hsp.
  apply andb_true_iff in Hsp as [Hav _].
  apply value_eqb_eq. exact Hav.
Qed.

(** ** The webhook *)

Section WebhookFacts.
Variable cfg : Config.
Variable post : string -> list (string * string) -> Webhook.Payload -> result Webhook.Response.

(** A failed placement has written nothing. *)
Lemma placement_failure_keeps_store (_id : nat) (o : Order.t) (db db1 : Store) (e : exn) :
  Webhook._create_printify_order_from_order cfg post _id o db = (db1, Raise e) ->
  db1 = db.
Proof.
  unfold Webhook._create_printify_order_from_order.
  destruct (Webhook.place_order cfg post _id o db) as [resp | e'].
  - destruct resp; intros H; try discriminate H.
    all: injection H as <- _; reflexivity.
  - intros H. injection H as <- _. reflexivity.
Qed.

Lemma webhook_other_type (event : StripeWebhook.t) (db : Store) :
  StripeWebhook.type event <> "checkout.session.completed" ->
  Webhook.stripe_webhook cfg post event db = (db, Ok (Webhook.mkAck true)).
Proof.
  intros H. unfold Webhook.stripe_webhook.
  destruct (String.eqb (StripeWebhook.type event) "checkout.session.completed") eqn:E;
    [ | reflexivity].
  apply String.eqb_eq in E. contradiction.
Qed.

Lemma webhook_no_order (event : StripeWebhook.t) (db : Store) (sid : value) :
  Webhook.session_id_of (StripeWebhook.data event) = Ok sid ->
  Collection.find_one (by_session sid) (order db) = None ->
  Webhook.stripe_webhook cfg post event db = (db, Ok (Webhook.mkAck true)).
Proof.
  intros Hsid Hnone. unfold Webhook.stripe_webhook.
  destruct (String.eqb (StripeWebhook.type event) "checkout.session.completed");
    [ | reflexivity].
  rewrite Hsid, Hnone. reflexivity.
Qed.
End WebhookFacts.

(** C2: when a [checkout.session.completed] event matches a stored
    order and the fulfillment placement raises, the handler sets that
    order's status to [failed], touches nothing else, and still returns
    [{received: true}]. *)
Theorem webhook_failed_fulfillment
  (cfg : Config)
  (post : string -> list (string * string) -> Webhook.Payload -> result Webhook.Response)
  (event : StripeWebhook.t) (db db1 : Store) (sid : value)
  (_id : nat) (o : Order.t) (e : exn) :
  StripeWebhook.type event = "checkout.session.completed" ->
  Webhook.session_id_of (StripeWebhook.data event) = Ok sid ->
  Collection.find_one (by_session sid) (order db) = Some (_id, o) ->
  Webhook._create_printify_order_from_order cfg post _id o db = (db1, Raise e) ->
  exists db',
    Webhook.stripe_webhook cfg post event db = (db', Ok (Webhook.mkAck true)) /\
    nth_error (order db') _id = Some (Order.set_status "failed" o) /\
    Order.status (Order.set_status "failed" o) = "failed" /\
    (forall j, j <> _id -> nth_error (order db') j = nth_error (order db) j) /\
    List.length (order db') = List.length (order db) /\
    storeproduct db' = storeproduct db.
Proof.
  intros Htype Hsid Hfind Hfail.
  pose proof (placement_failure_keeps_store cfg post _ _ _ _ _ Hfail) as ->.
  exists (Webhook.set_order_status _id "failed" db).
  split.
  - unfold Webhook.stripe_webhook. rewrite Htype, String.eqb_refl, Hsid, Hfind, Hfail.
    reflexivity.
  - destruct (find_one_Some _ _ _ _ Hfind) as [Hnth _].
    unfold Webhook.set_order_status. cbn [order with_order storeproduct].
    split; [apply update_id_nth, Hnth | ].
    split; [reflexivity | ].
    split; [intros j Hj; apply update_id_other; congruence | ].
    split; [apply update_id_length | reflexivity].
Qed.

(** C8: a [checkout.session.completed] event whose session id matches
    no stored order, and an event of any other type, are acknowledged
    with [{received: true}] and leave the store as it was. *)
Theorem webhook_unmatched_event
  (cfg : Config)
  (post : string -> list (string * string) -> Webhook.Payload -> result Webhook.Response)
  (event : StripeWebhook.t) (db : Store) :
  (StripeWebhook.type event = "checkout.session.completed" /\
   exists sid,
     Webhook.session_id_of (StripeWebhook.data event) = Ok sid /\
     Collection.find_one (by_session sid) (order db) = None) \/
  StripeWebhook.type event <> "checkout.session.completed" ->
  Webhook.stripe_webhook cfg post event db = (db, Ok (Webhook.mkAck true)).
Proof.
  intros [[_ (sid & Hsid & Hnone)] | Hother].
  - apply (webhook_no_order cfg post event db sid Hsid Hnone).
  - apply (webhook_other_type cfg post event db Hother).
Qed.

Lemma webhook_failed_fulfillment_witness :
  exists db',
    Webhook.stripe_webhook Sample.cfg Sample.post_rejects (Sample.completed "cs_1")
      Sample.one_order = (db', Ok (Webhook.mkAck true)) /\
    nth_error (order db') 0 = Some (Order.set_status "failed" Sample.paid_order) /\
    Order.status (Order.set_status "failed" Sample.paid_order) = "failed" /\
    (forall j, j <> 0%nat -> nth_error (order db') j = nth_error (order Sample.one_order) j) /\
    List.length (order db') = List.length (order Sample.one_order) /\
    storeproduct db' = storeproduct Sample.one_order.
Proof.
  apply (webhook_failed_fulfillment Sample.cfg Sample.post_rejects
           (Sample.completed "cs_1") Sample.one_order Sample.one_order
           (VStr "cs_1") 0 Sample.paid_order (HTTPException 422 "unprocessable"));
    reflexivity.
Defined.

Lemma webhook_unmatched_event_witness :
  Webhook.stripe_webhook Sample.cfg Sample.post_rejects (Sample.completed "cs_404")
    Sample.one_order = (Sample.one_order, Ok (Webhook.mkAck true)).
Proof.
  apply webhook_unmatched_event. left. split; [reflexivity | ].
  exists (VStr "cs_404"). split; reflexivity.
Defined.

(** ** Checkout *)

Lemma item_price_effective (products : list StoreProduct.t) (it : CheckoutItem.t)
  (i : nat) (sp : StoreProduct.t) :
  Collection.find_one (by_id (VStr (CheckoutItem.product_id it))) products = Some (i, sp) ->
  Checkout.item_price it sp = Spec.unit_price_if_nonzero products it.
Proof.
  intros H. unfold Checkout.item_price, Spec.unit_price_if_nonzero, Spec.stored_price.
  rewrite H. unfold Py.float_truthy.
  destruct (CheckoutItem.unit_amount it) as [u | ]; [ | reflexivity].
  destruct (PrimFloat.eqb u 0%float); reflexivity.
Qed.

(** The loop adds up, in request order, the effective price of each
    item times its quantity, and only succeeds when every item
    resolves. *)
Lemma items_loop_sum (currency : string) (products : list StoreProduct.t)
  (items : list CheckoutItem.t) (line_items line_items' : list Checkout.LineItem)
  (acc total : float) :
  Checkout.items_loop currency products items line_items acc = Ok (line_items', total) ->
  Spec.sum_items (Spec.unit_price_if_nonzero products) items acc = Ok total /\
  Forall (Spec.resolves products) items /\
  List.length line_items' = (List.length line_items + List.length items)%nat.
Proof.
  revert line_items acc.
  induction items as [ | it items IH]; intros line_items acc H.
  - injection H as <- <-. cbn. split; [reflexivity | split; [constructor | lia]].
  - cbn [Checkout.items_loop Spec.sum_items] in *.
    destruct (Collection.find_one (by_id (VStr (CheckoutItem.product_id it))) products)
      as [[i sp] | ] eqn:Hfind; [ | discriminate H].
    rewrite <- (item_price_effective products it i sp Hfind).
    destruct (Checkout.item_price it sp) as [price | e]; [ | discriminate H].
    cbn [rbind] in *.
    destruct (Py.float_of_int (CheckoutItem.quantity it)) as [q | e]; [ | discriminate H].
    cbn [rbind] in *.
    destruct (Py.int_of_float (PrimFloat.mul price 100%float)) as [n | e];
      [ | discriminate H].
    cbn [rbind] in H.
    destruct (IH _ _ H) as (Hsum & Hres & Hlen).
    split; [exact Hsum | split].
    + constructor; [ | exact Hres]. unfold Spec.resolves. rewrite Hfind. discriminate.
    + rewrite Hlen, length_app. cbn [List.length]. lia.
Qed.

Lemma items_loop_app (currency : string) (products : list StoreProduct.t)
  (pre rest : list CheckoutItem.t) (line_items : list Checkout.LineItem) (acc : float) :
  Checkout.items_loop currency products (pre ++ rest) line_items acc =
  match Checkout.items_loop currency products pre line_items acc with
  | Ok (line_items', acc') => Checkout.items_loop currency products rest line_items' acc'
  | Raise e => Raise e
  end.
Proof.
  revert line_items acc.
  induction pre as [ | it pre IH]; intros line_items acc; [reflexivity | ].
  cbn [app Checkout.items_loop].
  destruct (Collection.find_one (by_id (VStr (CheckoutItem.product_id it))) products)
    as [[i sp] | ]; [ | reflexivity].
  destruct (Checkout.item_price it sp) as [price | e]; [ | reflexivity].
  cbn [rbind].
  destruct (Py.float_of_int (CheckoutItem.quantity it)) as [q | e]; [ | reflexivity].
  cbn [rbind].
  destruct (Py.int_of_float (PrimFloat.mul price 100%float)) as [n | e]; [ | reflexivity].
  cbn [rbind]. apply IH.
Qed.

Lemma items_loop_priced (currency : string) (products : list StoreProduct.t)
  (items : list CheckoutItem.t) (line_items : list Checkout.LineItem) (acc : float) :
  Forall (Spec.priced products) items ->
  exists r, Checkout.items_loop currency products items line_items acc = Ok r.
Proof.
  intros H. revert line_items acc.
  induction H as [ | it items (i & sp & price & q & n & Hf & Hp & Hq & Hn) _ IH];
    intros line_items acc.
  - eexists. reflexivity.
  - cbn [Checkout.items_loop]. rewrite Hf, Hp. cbn [rbind].
    rewrite Hq. cbn [rbind]. rewrite Hn. cbn [rbind]. apply IH.
Qed.

Lemma items_loop_unknown (currency : string) (products : list StoreProduct.t)
  (items : list CheckoutItem.t) (it : CheckoutItem.t)
  (line_items : list Checkout.LineItem) (acc : float) :
  In it items ->
  Collection.find_one (by_id (VStr (CheckoutItem.product_id it))) products = None ->
  exists e, Checkout.items_loop currency products items line_items acc = Raise e.
Proof.
  intros Hin Hnone. revert line_items acc.
  induction items as [ | it' items IH]; intros line_items acc; [contradiction | ].
  cbn [Checkout.items_loop].
  destruct Hin as [-> | Hin].
  - rewrite Hnone. eexists. reflexivity.
  - destruct (Collection.find_one (by_id (VStr (CheckoutItem.product_id it'))) products)
      as [[i sp] | ]; [ | eexists; reflexivity].
    destruct (Checkout.item_price it' sp) as [price | e]; [ | eexists; reflexivity].
    cbn [rbind].
    destruct (Py.float_of_int (CheckoutItem.quantity it')) as [q | e];
      [ | eexists; reflexivity].
    cbn [rbind].
    destruct (Py.int_of_float (PrimFloat.mul price 100%float)) as [n | e];
      [ | eexists; reflexivity].
    cbn [rbind]. apply (IH Hin).
Qed.

(** C1 as stated fails: a [unit_amount] of 0 is not honoured.  Two
    cats at the stored price 15.0 with [unit_amount = 0.0] persist
    [amount_total = 30.0], where the sum with the override is 0.0. *)
Lemma zero_override_counterexample :
  let free_cats := CheckoutItem.mk "p1" None 2 (Some 0%float) in
  let payload := CheckoutSessionIn.mk None [free_cats] "usd" in
  Forall (Spec.resolves (storeproduct Sample.catalog_only))
    (CheckoutSessionIn.items payload) /\
  exists db' session o claimed,
    Checkout.create_checkout_session Sample.cfg Sample.upper Sample.stripe_ok payload
      Sample.catalog_only = (db', Ok session) /\
    order db' = [o] /\
    Spec.sum_items (Spec.unit_price_if_present (storeproduct Sample.catalog_only))
      (CheckoutSessionIn.items payload) 0%float = Ok claimed /\
    Order.amount_total o = 30%float /\
    Py.round2 claimed = 0%float /\
    Order.amount_total o <> Py.round2 claimed.
Proof.
  cbv zeta. split.
  - constructor; [ | constructor]. vm_compute. discriminate.
  - do 4 eexists.
    split; [vm_compute; reflexivity | ].
    split; [reflexivity | ].
    split; [vm_compute; reflexivity | ].
    split; [reflexivity | ].
    split; [vm_compute; reflexivity | ].
    apply float_neq. vm_compute. discriminate.
Qed.

(** C1, amended: when a checkout succeeds, every item resolved to a
    stored product and the persisted order's [amount_total] is the sum
    over the items of (effective unit price x quantity) rounded to 2
    decimals, where the effective unit price is the caller-supplied
    [unit_amount] when it is present and not zero, and the stored
    product's price otherwise. *)
Theorem checkout_amount_total
  (cfg : Config) (upper : string -> string)
  (stripe_create : list Checkout.LineItem -> string -> string -> result Checkout.Session)
  (payload : CheckoutSessionIn.t) (db db' : Store) (session : Checkout.Session) :
  Checkout.create_checkout_session cfg upper stripe_create payload db = (db', Ok session) ->
  Forall (Spec.resolves (storeproduct db)) (CheckoutSessionIn.items payload) /\
  exists total o,
    Spec.sum_items (Spec.unit_price_if_nonzero (storeproduct db))
      (CheckoutSessionIn.items payload) 0%float = Ok total /\
    order db' = (order db ++ [o])%list /\
    storeproduct db' = storeproduct db /\
    Order.amount_total o = Py.round2 total /\
    Order.items o = CheckoutSessionIn.items payload /\
    Order.status o = "created" /\
    Order.stripe_session_id o = Checkout.session_id session.
Proof.
  unfold Checkout.create_checkout_session. intros H.
  destruct (unset (STRIPE_API_KEY cfg)); [discriminate H | ].
  destruct (Checkout.items_loop (CheckoutSessionIn.currency payload) (storeproduct db)
              (CheckoutSessionIn.items payload) [] 0%float)
    as [[line_items total] | e] eqn:Hloop; [ | discriminate H].
  destruct (stripe_create line_items _ _) as [s | e]; [ | discriminate H].
  injection H as <- <-.
  destruct (items_loop_sum _ _ _ _ _ _ _ Hloop) as (Hsum & Hres & _).
  split; [exact Hres | ].
  eexists total, _. split; [exact Hsum | ].
  cbn [order with_order storeproduct]. unfold Collection.insert_one.
  split; [reflexivity | ]. repeat split.
Qed.

(** The checkout scenario of the specification: two cats at the stored
    price 15.0 persist an order with [amount_total = 30.0]. *)
Lemma checkout_amount_total_witness :
  let payload := CheckoutSessionIn.mk None [Sample.two_cats] "usd" in
  Forall (Spec.resolves (storeproduct Sample.catalog_only))
    (CheckoutSessionIn.items payload) /\
  exists total o,
    Spec.sum_items (Spec.unit_price_if_nonzero (storeproduct Sample.catalog_only))
      (CheckoutSessionIn.items payload) 0%float = Ok total /\
    order Sample.one_order = (order Sample.catalog_only ++ [o])%list /\
    storeproduct Sample.one_order = storeproduct Sample.catalog_only /\
    Order.amount_total o = Py.round2 total /\
    Order.items o = CheckoutSessionIn.items payload /\
    Order.status o = "created" /\
    Order.stripe_session_id o =
      Checkout.session_id (Checkout.mkSession "cs_1" "https://checkout.stripe.com/pay/cs_1").
Proof.
  cbv zeta.
  apply (checkout_amount_total Sample.cfg Sample.upper Sample.stripe_ok).
  vm_compute. reflexivity.
Defined.

(** C5 as stated fails: the items are priced in request order, and an
    earlier item can raise first.  With [unit_amount = 1e308] on a
    stored product, the price in minor units is infinite and [int]
    raises [OverflowError] before the unknown product is looked up. *)
Lemma unknown_product_counterexample :
  let huge := CheckoutItem.mk "p1" None 1 (Some 1e308%float) in
  let ghost := CheckoutItem.mk "missing" None 1 None in
  let payload := CheckoutSessionIn.mk None [huge; ghost] "usd" in
  In ghost (CheckoutSessionIn.items payload) /\
  Collection.find_one (by_id (VStr (CheckoutItem.product_id ghost)))
    (storeproduct Sample.catalog_only) = None /\
  Checkout.create_checkout_session Sample.cfg Sample.upper Sample.stripe_ok payload
    Sample.catalog_only = (Sample.catalog_only, Raise OverflowError) /\
  ~ (exists detail,
        snd (Checkout.create_checkout_session Sample.cfg Sample.upper Sample.stripe_ok payload
               Sample.catalog_only) = Raise (HTTPException 404 detail)).
Proof.
  cbv zeta. split; [right; left; reflexivity | ].
  split; [reflexivity | ].
  split; [vm_compute; reflexivity | ].
  intros [detail H]. vm_compute in H. discriminate H.
Qed.

(** C5, amended: a checkout request containing an item whose product
    is not stored fails and leaves the store, and so the order
    collection, unchanged; the failure is the not-found error of the
    first such item when the payment key is configured and every item
    before it is priced without raising. *)
Theorem checkout_unknown_product
  (cfg : Config) (upper : string -> string)
  (stripe_create : list Checkout.LineItem -> string -> string -> result Checkout.Session)
  (payload : CheckoutSessionIn.t) (db : Store)
  (pre post : list CheckoutItem.t) (it : CheckoutItem.t) :
  CheckoutSessionIn.items payload = (pre ++ it :: post)%list ->
  Collection.find_one (by_id (VStr (CheckoutItem.product_id it))) (storeproduct db)
    = None ->
  (exists e,
      Checkout.create_checkout_session cfg upper stripe_create payload db = (db, Raise e)) /\
  (unset (STRIPE_API_KEY cfg) = false ->
   Forall (Spec.priced (storeproduct db)) pre ->
   Checkout.create_checkout_session cfg upper stripe_create payload db =
   (db, Raise (HTTPException 404
                 ("Product " ++ CheckoutItem.product_id it ++ " not found")))).
Proof.
  intros Hitems Hnone. unfold Checkout.create_checkout_session. rewrite Hitems. split.
  - destruct (unset (STRIPE_API_KEY cfg)); [eexists; reflexivity | ].
    destruct (items_loop_unknown (CheckoutSessionIn.currency payload) (storeproduct db)
                (pre ++ it :: post) it [] 0%float) as [e He].
    + apply in_or_app. right. left. reflexivity.
    + exact Hnone.
    + rewrite He. eexists. reflexivity.
  - intros Hkey Hpre. rewrite Hkey, items_loop_app.
    destruct (items_loop_priced (CheckoutSessionIn.currency payload) (storeproduct db)
                pre [] 0%float Hpre) as [[line_items acc] Hr].
    rewrite Hr. cbn [Checkout.items_loop]. rewrite Hnone. reflexivity.
Qed.

Lemma checkout_unknown_product_witness :
  let ghost := CheckoutItem.mk "missing" None 1 None in
  let payload := CheckoutSessionIn.mk None [Sample.two_cats; ghost] "usd" in
  (exists e,
      Checkout.create_checkout_session Sample.cfg Sample.upper Sample.stripe_ok payload
        Sample.catalog_only = (Sample.catalog_only, Raise e)) /\
  Checkout.create_checkout_session Sample.cfg Sample.upper Sample.stripe_ok payload
    Sample.catalog_only =
  (Sample.catalog_only, Raise (HTTPException 404 "Product missing not found")).
Proof.
  cbv zeta.
  destruct (checkout_unknown_product Sample.cfg Sample.upper Sample.stripe_ok
              (CheckoutSessionIn.mk None
                 [Sample.two_cats; CheckoutItem.mk "missing" None 1 None] "usd")
              Sample.catalog_only [Sample.two_cats] []
              (CheckoutItem.mk "missing" None 1 None) eq_refl eq_refl) as [H1 H2].
  split; [exact H1 | ].
  apply H2; [reflexivity | ].
  constructor; [ | constructor].
  exists 0%nat, Sample.cat, 15%float, 2%float, 1500.
  repeat split.
Defined.

(** A request whose items are all priced, with the payment key set and
    a provider that opens the session, succeeds. *)
Lemma checkout_succeeds
  (cfg : Config) (upper : string -> string)
  (stripe_create : list Checkout.LineItem -> string -> string -> result Checkout.Session)
  (payload : CheckoutSessionIn.t) (db : Store) (session : Checkout.Session) :
  unset (STRIPE_API_KEY cfg) = false ->
  Forall (Spec.priced (storeproduct db)) (CheckoutSessionIn.items payload) ->
  (forall line_items success cancel, stripe_create line_items success cancel = Ok session) ->
  exists db', Checkout.create_checkout_session cfg upper stripe_create payload db
              = (db', Ok session).
Proof.
  intros Hkey Hpriced Hstripe. unfold Checkout.create_checkout_session.
  rewrite Hkey.
  destruct (items_loop_priced (CheckoutSessionIn.currency payload) (storeproduct db)
              (CheckoutSessionIn.items payload) [] 0%float Hpriced)
    as [[line_items total] Hr].
  rewrite Hr, Hstripe. eexists. reflexivity.
Qed.

(** The checkout scenario of the specification, line item included:
    one line item with [unit_amount = 1500] in minor units. *)
Example checkout_scenario_line_item :
  Checkout.items_loop "usd" [Sample.cat] [Sample.two_cats] [] 0%float =
  Ok ([Checkout.mkLineItem "usd" (VStr "Cat") [] 1500 2], 30%float).
Proof. vm_compute. reflexivity. Qed.

(** Without the payment key the request fails before any lookup. *)
Example checkout_without_key :
  Checkout.create_checkout_session Sample.cfg_no_stripe Sample.upper Sample.stripe_ok
    (CheckoutSessionIn.mk None [CheckoutItem.mk "missing" None 1 None] "usd")
    Sample.catalog_only =
  (Sample.catalog_only, Raise (HTTPException 500 "Stripe not configured")).
Proof. reflexivity. Qed.

(** * Further properties *)

(** ** Fetching the catalog *)

Lemma headers_configured (cfg : Config) :
  unset (PRINTIFY_API_TOKEN cfg) = false ->
  exists headers, Webhook._printify_headers cfg = Ok headers.
Proof.
  unfold unset, Webhook._printify_headers.
  destruct (PRINTIFY_API_TOKEN cfg) as [tok | ]; [ | discriminate].
  intros ->. eexists. reflexivity.
Qed.

Lemma headers_unset (cfg : Config) :
  unset (PRINTIFY_API_TOKEN cfg) = true ->
  Webhook._printify_headers cfg = Raise (HTTPException 500 "PRINTIFY_API_TOKEN not set").
Proof.
  unfold unset, Webhook._printify_headers.
  destruct (PRINTIFY_API_TOKEN cfg) as [tok | ]; [ | reflexivity].
  intros ->. reflexivity.
Qed.

(** With both settings set the fetch is the request and the reading of
    its answer. *)
Lemma fetch_configured (cfg : Config)
  (get : string -> list (string * string) -> result Webhook.Response) :
  Derived.configured cfg ->
  exists url headers,
    Printify.get_printify_products cfg get =
    (let? r := get url headers in
     if negb (Webhook.status_code r =? 200)
     then Raise (HTTPException (Webhook.status_code r) (Webhook.text r))
     else
       let? data := Webhook.json r in
       match data with
       | VDict d => Ok (Value.get_default d "data" data)
       | _ => Raise AttributeError
       end).
Proof.
  intros [Hshop Htok]. unfold Printify.get_printify_products.
  unfold unset in Hshop.
  destruct (PRINTIFY_SHOP_ID cfg) as [shop | ]; [ | discriminate Hshop].
  rewrite Hshop.
  destruct (headers_configured cfg Htok) as [headers Hh]. rewrite Hh.
  do 2 eexists. reflexivity.
Qed.

(** X1: the catalog fetch fails with a 500 naming the missing setting
    when the shop id is unset or empty, and, the shop id being set,
    when the API token is unset or empty; the provider is not asked. *)
Theorem fetch_unconfigured (cfg : Config)
  (get : string -> list (string * string) -> result Webhook.Response) :
  (unset (PRINTIFY_SHOP_ID cfg) = true ->
   Printify.get_printify_products cfg get =
   Raise (HTTPException 500 "PRINTIFY_SHOP_ID not set")) /\
  (unset (PRINTIFY_SHOP_ID cfg) = false ->
   unset (PRINTIFY_API_TOKEN cfg) = true ->
   Printify.get_printify_products cfg get =
   Raise (HTTPException 500 "PRINTIFY_API_TOKEN not set")).
Proof.
  unfold Printify.get_printify_products, unset at 1 2. split.
  - destruct (PRINTIFY_SHOP_ID cfg) as [shop | ]; [ | reflexivity].
    intros ->. reflexivity.
  - destruct (PRINTIFY_SHOP_ID cfg) as [shop | ]; [ | discriminate].
    intros -> Htok. rewrite (headers_unset cfg Htok). reflexivity.
Qed.

Lemma fetch_unconfigured_witness :
  Printify.get_printify_products
    (mkConfig None (Some "shop_1") None "http://localhost:3000")
    (fun _ _ => Raise RequestException) =
  Raise (HTTPException 500 "PRINTIFY_API_TOKEN not set") /\
  Printify.get_printify_products
    (mkConfig (Some "token") (Some "") None "http://localhost:3000")
    (fun _ _ => Raise RequestException) =
  Raise (HTTPException 500 "PRINTIFY_SHOP_ID not set").
Proof.
  split.
  - apply (proj2 (fetch_unconfigured _ _)); reflexivity.
  - apply (proj1 (fetch_unconfigured _ _)); reflexivity.
Defined.

(** X2: with the settings in place, a provider answer whose status is
    not 200 becomes an [HTTPException] with that status and body, an
    exception of the request itself is passed on, and in both cases the
    sync endpoint returns the error with the store as it was. *)
Theorem fetch_provider_error (db_bool : result bool) (cfg : Config)
  (get : string -> list (string * string) -> result Webhook.Response)
  (db : Store) :
  Derived.configured cfg ->
  (forall r, (forall url headers, get url headers = Ok r) ->
     Webhook.status_code r <> 200 ->
     Printify.sync_endpoint cfg get db_bool db =
     (db, Raise (HTTPException (Webhook.status_code r) (Webhook.text r)))) /\
  (forall e, (forall url headers, get url headers = Raise e) ->
     Printify.sync_endpoint cfg get db_bool db = (db, Raise e)).
Proof.
  intros Hcfg. destruct (fetch_configured cfg get Hcfg) as (url & headers & Hfetch).
  unfold Printify.sync_endpoint. rewrite Hfetch. split.
  - intros r Hget Hstatus. rewrite Hget. cbn [rbind].
    destruct (Webhook.status_code r =? 200) eqn:E; [ | reflexivity].
    apply Z.eqb_eq in E. contradiction.
  - intros e Hget. rewrite Hget. reflexivity.
Qed.

Lemma fetch_provider_error_witness :
  Printify.sync_endpoint Sample.cfg
    (fun _ _ => Ok (Webhook.mkResponse 503 "unavailable" (Raise ValueError)))
    (Ok true) Sample.one_order =
  (Sample.one_order, Raise (HTTPException 503 "unavailable")).
Proof.
  apply (proj1 (fetch_provider_error (Ok true) Sample.cfg _ Sample.one_order
                  (conj eq_refl eq_refl))
           (Webhook.mkResponse 503 "unavailable" (Raise ValueError))).
  - reflexivity.
  - discriminate.
Defined.

(** X3: a 200 answer whose body is not a JSON object fails on
    [data.get]: a bare list of products, the other shape the source's
    comment expects, makes the sync endpoint raise [AttributeError]
    with the store as it was; an object with a [data] entry is
    unwrapped and synced. *)
Theorem fetch_body_shapes (db_bool : result bool) (cfg : Config)
  (get : string -> list (string * string) -> result Webhook.Response)
  (db : Store) (text : string) (body : value) :
  Derived.configured cfg ->
  (forall url headers, get url headers = Ok (Webhook.mkResponse 200 text (Ok body))) ->
  (forall l, body = VList l ->
     Printify.sync_endpoint cfg get db_bool db = (db, Raise AttributeError)) /\
  (forall d l, body = VDict d -> Value.assoc "data" d = Some (VList l) ->
     Printify.sync_endpoint cfg get db_bool db = sync_printify_products db_bool l db).
Proof.
  intros Hcfg Hget. destruct (fetch_configured cfg get Hcfg) as (url & headers & Hfetch).
  unfold Printify.sync_endpoint. rewrite Hfetch, Hget. cbn [rbind Webhook.status_code
    Webhook.json Webhook.text Z.eqb Pos.eqb negb]. split.
  - intros l ->. reflexivity.
  - intros d l -> Hdata. unfold Value.get_default. rewrite Hdata. reflexivity.
Qed.

Lemma fetch_body_shapes_witness :
  let cat := VDict [("id", VStr "p1"); ("title", VStr "Cat")] in
  Printify.sync_endpoint Sample.cfg
    (fun _ _ => Ok (Webhook.mkResponse 200 "" (Ok (VList [cat]))))
    (Ok true) Sample.one_order = (Sample.one_order, Raise AttributeError) /\
  Printify.sync_endpoint Sample.cfg
    (fun _ _ => Ok (Webhook.mkResponse 200 "" (Ok (VDict [("data", VList [cat])]))))
    (Ok true) Sample.one_order = sync_printify_products (Ok true) [cat] Sample.one_order.
Proof.
  cbv zeta. split.
  - apply (proj1 (fetch_body_shapes (Ok true) Sample.cfg _ Sample.one_order "" _
                    (conj eq_refl eq_refl) (fun _ _ => eq_refl)) _ eq_refl).
  - apply (proj2 (fetch_body_shapes (Ok true) Sample.cfg _ Sample.one_order "" _
                    (conj eq_refl eq_refl) (fun _ _ => eq_refl))
             [("data", VList [VDict [("id", VStr "p1"); ("title", VStr "Cat")]])]
             [VDict [("id", VStr "p1"); ("title", VStr "Cat")]]);
      reflexivity.
Defined.

(** ** Sync: what a run returns and stores *)

Lemma normalize_inv (p : dict) (product_id : value) (doc : StoreProduct.t) :
  normalize p product_id = Ok doc ->
  exists previews images vs dv price,
    Value.iter (Value.or (Value.or (Value.get p "images") (Value.get p "files"))
                  (VList [])) = Ok previews /\
    collect_images previews [] = Ok images /\
    Value.iter (Value.or (Value.get p "variants") (VList [])) = Ok vs /\
    variants_loop vs (VNone, NInt 0) = Ok (dv, price) /\
    doc = StoreProduct.mk product_id
            (Value.or (Value.or (Value.get p "title") (Value.get p "name"))
               (VStr "Untitled"))
            (Value.get p "description")
            (firstn 8 images)
            (Value.or (Value.get p "tags") (VList []))
            (Value.or (Value.get p "categories") (VList []))
            (Value.or (Value.get p "variants") (VList []))
            dv
            (Num.round2 (if Num.truthy price then price else NInt 0))
            "USD"
            (Value.get_default p "visible" (VBool true)).
Proof.
  unfold normalize. intros H.
  destruct (Value.iter (Value.or (Value.or (Value.get p "images") (Value.get p "files"))
                          (VList []))) as [pv | e] eqn:Hpv; [ | discriminate H].
  cbn [rbind] in H.
  destruct (collect_images pv []) as [imgs | e] eqn:Himgs; [ | discriminate H].
  cbn [rbind] in H.
  destruct (Value.iter (Value.or (Value.get p "variants") (VList []))) as [vs | e] eqn:Hvs;
    [ | discriminate H].
  cbn [rbind] in H.
  destruct (variants_loop vs (VNone, NInt 0)) as [[dv price] | e] eqn:Hloop;
    [ | discriminate H].
  cbn [rbind] in H. injection H as <-.
  exists pv, imgs, vs, dv, price. repeat split; assumption.
Qed.

Lemma normalize_id (p : dict) (product_id : value) (doc : StoreProduct.t) :
  normalize p product_id = Ok doc -> StoreProduct.id doc = product_id.
Proof.
  intros H. destruct (normalize_inv p product_id doc H)
    as (pv & imgs & vs & dv & price & _ & _ & _ & _ & ->).
  reflexivity.
Qed.

Lemma sync_loop_ok (db_bool : result bool) (products : list value) (synced : Z)
  (saved_docs : list StoreProduct.t) (db db' : Store) (r : SyncResponse.t) :
  sync_loop db_bool products synced saved_docs db = (db', Ok r) ->
  SyncResponse.products r = (saved_docs ++ Spec.upserted db_bool products)%list /\
  SyncResponse.synced r = synced + Z.of_nat (List.length (Spec.upserted db_bool products)) /\
  List.length (Spec.upserted db_bool products) =
    List.length (filter Derived.has_id products) /\
  Forall (fun v => Derived.record_error db_bool v = None) products.
Proof.
  revert synced saved_docs db.
  induction products as [ | v products IH]; intros synced saved_docs db H.
  - injection H as _ <-. cbn. rewrite app_nil_r.
    repeat split; try constructor. lia.
  - cbn [sync_loop Spec.upserted filter Derived.has_id] in *.
    destruct v as [ | | | | | | p]; try discriminate H.
    cbn [Derived.has_id Derived.record_error].
    destruct (Value.truthy (product_id_of p)) eqn:Hid; cbn [negb] in *.
    + destruct (normalize p (product_id_of p)) as [doc | e] eqn:Hn; [ | discriminate H].
      destruct db_bool as [b | e]; [ | discriminate H].
      destruct (IH _ _ _ H) as (Hp & Hs & Hl & Hall).
      split; [rewrite Hp, <- app_assoc; reflexivity | ].
      split; [rewrite Hs; cbn [List.length]; lia | ].
      split; [cbn [List.length]; rewrite Hl; reflexivity | ].
      constructor; [ | exact Hall].
      cbn [Derived.record_error]. rewrite Hid, Hn. reflexivity.
    + destruct (IH _ _ _ H) as (Hp & Hs & Hl & Hall).
      split; [exact Hp | split; [exact Hs | split; [exact Hl | ]]].
      constructor; [ | exact Hall].
      cbn [Derived.record_error]. rewrite Hid. reflexivity.
Qed.

Lemma upserted_raise (e : exn) (products : list value) :
  Spec.upserted (Raise e) products = [].
Proof.
  induction products as [ | v products IH]; [reflexivity | ].
  cbn [Spec.upserted]. destruct v as [ | | | | | | p]; try reflexivity.
  destruct (negb (Value.truthy (product_id_of p))); [exact IH | ].
  destruct (normalize p (product_id_of p)); reflexivity.
Qed.

(** X4: when a sync run succeeds, [synced] is the number of documents
    it returns, which is the number of records with a usable id; no
    record of the list raised; and when a document was returned the
    truth test of the store handle at line 132 did not raise. *)
Theorem sync_counts_saved_documents (db_bool : result bool)
  (products : list value) (db db' : Store) (r : SyncResponse.t) :
  sync_printify_products db_bool products db = (db', Ok r) ->
  SyncResponse.synced r = Z.of_nat (List.length (SyncResponse.products r)) /\
  List.length (SyncResponse.products r) =
    List.length (filter Derived.has_id products) /\
  Forall (fun v => Derived.record_error db_bool v = None) products /\
  (SyncResponse.products r <> [] -> exists b, db_bool = Ok b).
Proof.
  intros H. destruct (sync_loop_ok _ _ _ _ _ _ _ H) as (Hp & Hs & Hl & Hall).
  cbn [app] in Hp. rewrite Hp, Hs, <- Hl.
  split; [lia | split; [reflexivity | split; [exact Hall | ]]].
  destruct db_bool as [b | e]; [intros _; exists b; reflexivity | ].
  rewrite upserted_raise. intros Hne. contradiction.
Qed.

Lemma sync_counts_saved_documents_witness :
  let products :=
    [VDict [("id", VStr "p1"); ("title", VStr "Cat")];
     VDict [("title", VStr "No id")];
     VDict [("_id", VStr "p2"); ("name", VStr "Dog")]] in
  exists db' r,
    sync_printify_products (Ok true) products (mkStore [] []) = (db', Ok r) /\
    SyncResponse.synced r = 2 /\
    SyncResponse.synced r = Z.of_nat (List.length (SyncResponse.products r)) /\
    List.length (SyncResponse.products r) =
      List.length (filter Derived.has_id products) /\
    Forall (fun v => Derived.record_error (Ok true) v = None) products /\
    (SyncResponse.products r <> [] -> exists b, Ok true = Ok b).
Proof.
  cbv zeta. do 2 eexists.
  split; [vm_compute; reflexivity | ].
  split; [reflexivity | ].
  refine (sync_counts_saved_documents (Ok true) _ (mkStore [] []) _ _ _).
  vm_compute. reflexivity.
Defined.

Lemma sync_loop_raises (db_bool : result bool) (v : value) (rest : list value) (synced : Z)
  (saved_docs : list StoreProduct.t) (db : Store) (e : exn) :
  Derived.record_error db_bool v = Some e ->
  sync_loop db_bool (v :: rest) synced saved_docs db = (db, Raise e).
Proof.
  intros H. cbn [sync_loop].
  destruct v as [ | | | | | | p]; try (injection H as <-; reflexivity).
  cbn [Derived.record_error] in H.
  destruct (negb (Value.truthy (product_id_of p))); [discriminate H | ].
  destruct (normalize p (product_id_of p)) as [doc | e'].
  - destruct db_bool as [b | e']; [discriminate H | ].
    injection H as ->. reflexivity.
  - injection H as ->. reflexivity.
Qed.

(** X5: a run stops at the first record that raises (a record that is
    not a JSON object, one whose images or variants cannot be read, or
    a record with an id when the truth test of the store handle
    raises) and nothing is rolled back: the store is the one the
    records before it left, the records after it are not processed,
    and the exception is the result. *)
Theorem sync_stops_without_rollback (db_bool : result bool)
  (pre post : list value) (v : value) (e : exn) (db db1 : Store)
  (r : SyncResponse.t) :
  sync_printify_products db_bool pre db = (db1, Ok r) ->
  Derived.record_error db_bool v = Some e ->
  sync_printify_products db_bool (pre ++ v :: post) db = (db1, Raise e).
Proof.
  unfold sync_printify_products. intros Hpre Hv.
  rewrite sync_loop_app, Hpre. apply sync_loop_raises, Hv.
Qed.

Lemma sync_stops_without_rollback_witness :
  let cat := VDict [("id", VStr "p1"); ("title", VStr "Cat");
                    ("variants", VList [VDict [("price", VInt 1500)]])] in
  let dog := VDict [("id", VStr "p2"); ("title", VStr "Dog")] in
  let nameless := VDict [("title", VStr "No id")] in
  sync_printify_products (Ok true) ([cat] ++ VStr "oops" :: [dog]) (mkStore [] []) =
  (mkStore
     [StoreProduct.mk (VStr "p1") (VStr "Cat") VNone [] (VList []) (VList [])
        (VList [VDict [("price", VInt 1500)]]) VNone (NFloat 15%float) "USD"
        (VBool true)] [],
   Raise AttributeError) /\
  sync_printify_products (Raise NotImplementedError) ([nameless] ++ cat :: [dog])
    Sample.one_order =
  (Sample.one_order, Raise NotImplementedError).
Proof.
  cbv zeta. split.
  - eapply (sync_stops_without_rollback (Ok true));
      [vm_compute; reflexivity | reflexivity].
  - eapply (sync_stops_without_rollback (Raise NotImplementedError));
      [vm_compute; reflexivity | vm_compute; reflexivity].
Defined.

Lemma find_from_find {A : Type} (filt : A -> bool) (c : list A) (i : nat) :
  option_map snd (Collection.find_from i filt c) = find filt c.
Proof.
  revert i. induction c as [ | x c IH]; intros i; cbn; [reflexivity | ].
  destruct (filt x); [reflexivity | apply IH].
Qed.

Lemma find_app {A : Type} (filt : A -> bool) (l l' : list A) :
  find filt (l ++ l') =
  match find filt l with
  | Some x => Some x
  | None => find filt l'
  end.
Proof.
  induction l as [ | x l IH]; cbn; [reflexivity | ].
  destruct (filt x); [reflexivity | exact IH].
Qed.

Lemma upserts_app (b : bool) (ds ds' c : list StoreProduct.t) :
  Spec.upserts b (ds ++ ds') c = Spec.upserts b ds' (Spec.upserts b ds c).
Proof. apply fold_left_app. Qed.

(** After a run of upserts that look the id up, the first stored
    document with an id of the run is the last document of the run
    with that id. *)
Lemma find_upserts_last (ds c : list StoreProduct.t) (k : value) :
  In k (map StoreProduct.id ds) ->
  find (by_id k) (Spec.upserts true ds c) = Derived.last_with k ds.
Proof.
  unfold Derived.last_with.
  induction ds as [ | d ds IH] using rev_ind; intros Hin; [contradiction | ].
  rewrite upserts_app, rev_app_distr. cbn [Spec.upserts fold_left rev app find].
  destruct (by_id k d) eqn:E.
  - apply by_id_true in E. subst k. apply find_upsert_self.
  - apply value_eqb_neq in E.
    rewrite find_upsert_other by exact E.
    apply IH. rewrite map_app in Hin. apply in_app_or in Hin as [Hin | Hin].
    + exact Hin.
    + cbn in Hin. destruct Hin as [Hin | []]. contradiction.
Qed.

(** X6: when the store handle tests true, so that line 132 looks the
    id up, after a successful sync every returned document is found
    again by its id, and what is found is the last returned document
    with that id. *)
Theorem sync_then_find
  (products : list value) (db db' : Store) (r : SyncResponse.t)
  (doc : StoreProduct.t) :
  sync_printify_products (Ok true) products db = (db', Ok r) ->
  In doc (SyncResponse.products r) ->
  option_map snd
    (Collection.find_one (by_id (StoreProduct.id doc)) (storeproduct db')) =
  Derived.last_with (StoreProduct.id doc) (SyncResponse.products r).
Proof.
  intros H Hin.
  assert (db' = fst (sync_printify_products (Ok true) products db)) as ->
    by (rewrite H; reflexivity).
  destruct (sync_loop_ok _ _ _ _ _ _ _ H) as (Hp & _). cbn [app] in Hp.
  unfold sync_printify_products. rewrite sync_loop_store.
  cbn [storeproduct with_storeproduct Spec.looks_up]. unfold Collection.find_one.
  rewrite find_from_find, Hp. apply find_upserts_last.
  apply in_map. rewrite <- Hp. exact Hin.
Qed.

Lemma sync_then_find_witness :
  let first := VDict [("id", VStr "p1"); ("title", VStr "Cat")] in
  let second := VDict [("id", VStr "p1"); ("title", VStr "Cat, revised")] in
  let doc title :=
    StoreProduct.mk (VStr "p1") (VStr title) VNone [] (VList []) (VList [])
      (VList []) VNone (NInt 0) "USD" (VBool true) in
  let db' := mkStore [doc "Cat, revised"] [] in
  let r := SyncResponse.mk 2 [doc "Cat"; doc "Cat, revised"] in
  sync_printify_products (Ok true) [first; second] (mkStore [] []) = (db', Ok r) /\
  option_map snd
    (Collection.find_one (by_id (StoreProduct.id (doc "Cat"))) (storeproduct db')) =
  Some (doc "Cat, revised") /\
  option_map snd
    (Collection.find_one (by_id (StoreProduct.id (doc "Cat"))) (storeproduct db')) =
  Derived.last_with (StoreProduct.id (doc "Cat")) (SyncResponse.products r).
Proof.
  cbv zeta. split; [vm_compute; reflexivity | ].
  split; [vm_compute; reflexivity | ].
  refine (sync_then_find
            [VDict [("id", VStr "p1"); ("title", VStr "Cat")];
             VDict [("id", VStr "p1"); ("title", VStr "Cat, revised")]]
            (mkStore [] []) _ _ _ _ _).
  - vm_compute. reflexivity.
  - left. reflexivity.
Defined.

Lemma upsert_into_insert (d : StoreProduct.t) (c : list StoreProduct.t) :
  upsert_into false d c = (c ++ [d])%list.
Proof. reflexivity. Qed.

Lemma keys_upsert (b : bool) (d : StoreProduct.t) (c : list StoreProduct.t) :
  exists added,
    map StoreProduct.id (upsert_into b d c) = (map StoreProduct.id c ++ added)%list.
Proof.
  destruct b.
  - rewrite upsert_into_cases. destruct (Spec.has (StoreProduct.id d) c).
    + exists []. rewrite keys_update, app_nil_r. reflexivity.
    + exists [StoreProduct.id d]. rewrite map_app. reflexivity.
  - exists [StoreProduct.id d]. rewrite upsert_into_insert, map_app. reflexivity.
Qed.

Lemma keys_upserts (b : bool) (ds c : list StoreProduct.t) :
  exists added,
    map StoreProduct.id (Spec.upserts b ds c) = (map StoreProduct.id c ++ added)%list.
Proof.
  revert c. induction ds as [ | d ds IH]; intros c; cbn [Spec.upserts fold_left].
  - exists []. rewrite app_nil_r. reflexivity.
  - destruct (IH (upsert_into b d c)) as [l Hl].
    destruct (keys_upsert b d c) as [l' Hl'].
    exists (l' ++ l)%list. unfold Spec.upserts in Hl. rewrite Hl, Hl', app_assoc.
    reflexivity.
Qed.

Lemma find_upsert_apart (b : bool) (k : value) (e : StoreProduct.t)
  (c : list StoreProduct.t) :
  StoreProduct.id e <> k ->
  find (by_id k) (upsert_into b e c) = find (by_id k) c.
Proof.
  intros Hne. destruct b; [apply find_upsert_other, Hne | ].
  rewrite upsert_into_insert, find_app. cbn [find].
  assert (by_id k e = false) as -> by (apply value_eqb_neq; exact Hne).
  destruct (find (by_id k) c); reflexivity.
Qed.

Lemma find_upserts_apart (b : bool) (k : value) (ds c : list StoreProduct.t) :
  ~ In k (map StoreProduct.id ds) ->
  find (by_id k) (Spec.upserts b ds c) = find (by_id k) c.
Proof.
  revert c. induction ds as [ | e ds IH]; intros c Hk; [reflexivity | ].
  cbn [Spec.upserts fold_left]. cbn [map In] in Hk.
  fold (Spec.upserts b ds (upsert_into b e c)).
  rewrite IH by tauto. apply find_upsert_apart. tauto.
Qed.

Lemma upserted_ids (db_bool : result bool) (products : list value) (doc : StoreProduct.t) :
  In doc (Spec.upserted db_bool products) ->
  exists p, In (VDict p) products /\ StoreProduct.id doc = product_id_of p.
Proof.
  induction products as [ | v products IH]; cbn [Spec.upserted]; [contradiction | ].
  destruct v as [ | | | | | | p]; try contradiction.
  destruct (negb (Value.truthy (product_id_of p))).
  - intros H. destruct (IH H) as (q & Hq & E). exists q. split; [right; exact Hq | exact E].
  - destruct (normalize p (product_id_of p)) as [d | e] eqn:Hn; [ | contradiction].
    destruct db_bool as [b | e]; [ | contradiction].
    intros [<- | H].
    + exists p. split; [left; reflexivity | apply (normalize_id _ _ _ Hn)].
    + destruct (IH H) as (q & Hq & E). exists q. split; [right; exact Hq | exact E].
Qed.

(** X7: whatever the truth test of the store handle gives and whatever
    the outcome, a sync run leaves the orders alone, keeps every
    stored product at its place with its id, only ever adding
    documents at the end, and leaves untouched the first stored
    document of every id that no record of the list carries. *)
Theorem sync_preserves (db_bool : result bool) (products : list value) (db : Store) :
  let db' := fst (sync_printify_products db_bool products db) in
  order db' = order db /\
  (exists added,
      map StoreProduct.id (storeproduct db') =
      (map StoreProduct.id (storeproduct db) ++ added)%list) /\
  (forall k,
      (forall p, In (VDict p) products -> product_id_of p <> k) ->
      Collection.find_one (by_id k) (storeproduct db') =
      Collection.find_one (by_id k) (storeproduct db)).
Proof.
  cbv zeta. unfold sync_printify_products. rewrite sync_loop_store.
  cbn [order storeproduct with_storeproduct].
  split; [reflexivity | split; [apply keys_upserts | ]].
  intros k Hk.
  assert (~ In k (map StoreProduct.id (Spec.upserted db_bool products))) as Hout.
  { intros Hin. apply in_map_iff in Hin as (doc & E & Hdoc).
    destruct (upserted_ids db_bool products doc Hdoc) as (p & Hp & E').
    apply (Hk p Hp). congruence. }
  generalize (find_upserts_apart (Spec.looks_up db_bool) k _ (storeproduct db) Hout).
  generalize (keys_upserts (Spec.looks_up db_bool) (Spec.upserted db_bool products)
                (storeproduct db)).
  generalize (Spec.upserts (Spec.looks_up db_bool) (Spec.upserted db_bool products)
                (storeproduct db)) as c'.
  intros c' [added Hkeys]. unfold Collection.find_one. generalize 0%nat.
  revert c' Hkeys. induction (storeproduct db) as [ | x c IH]; intros c' Hkeys n Hfind.
  - cbn [find] in Hfind. cbn [Collection.find_from].
    apply find_from_None. destruct (existsb (by_id k) c') eqn:E; [ | reflexivity].
    apply existsb_exists in E as (y & Hy & Ey).
    apply (find_none _ _ Hfind) in Hy. congruence.
  - destruct c' as [ | y c']; [discriminate Hkeys | ].
    cbn [map app] in Hkeys. injection Hkeys as Hy Hkeys.
    cbn [find Collection.find_from] in *.
    unfold by_id in *. rewrite Hy in *.
    destruct (Value.eqb (StoreProduct.id x) k) eqn:E.
    + injection Hfind as ->. reflexivity.
    + apply IH; assumption.
Qed.

Lemma sync_preserves_witness :
  let dog := VDict [("id", VStr "p2"); ("title", VStr "Dog")] in
  let db' := fst (sync_printify_products (Ok false) [dog; dog] Sample.one_order) in
  order db' = order Sample.one_order /\
  List.length (storeproduct db') = 3%nat /\
  Collection.find_one (by_id (VStr "p1")) (storeproduct db') = Some (0%nat, Sample.cat).
Proof.
  cbv zeta.
  destruct (sync_preserves (Ok false)
              [VDict [("id", VStr "p2"); ("title", VStr "Dog")];
               VDict [("id", VStr "p2"); ("title", VStr "Dog")]]
              Sample.one_order) as (Horder & _ & Hfind).
  split; [exact Horder | split; [reflexivity | ]].
  rewrite (Hfind (VStr "p1")); [reflexivity | ].
  intros p [E | [E | []]]; injection E as <-; vm_compute; discriminate.
Defined.

(** ** Sync: the fields of a stored document *)

Lemma or_first_truthy (a b c : value) :
  Value.or (Value.or a b) c = Derived.first_truthy [a; b] c.
Proof.
  unfold Value.or, Derived.first_truthy. cbn [find].
  destruct (Value.truthy a) eqn:Ea; [rewrite Ea; reflexivity | ].
  destruct (Value.truthy b); reflexivity.
Qed.

Lemma or_first_truthy1 (a c : value) :
  Value.or a c = Derived.first_truthy [a] c.
Proof.
  unfold Value.or, Derived.first_truthy. cbn [find].
  destruct (Value.truthy a); reflexivity.
Qed.

Lemma collect_images_spec (previews images result : list value) :
  collect_images previews images = Ok result ->
  result = (images ++ filter Value.truthy (map Derived.image_url previews))%list.
Proof.
  revert images. induction previews as [ | im previews IH]; intros images H.
  - injection H as <-. cbn. rewrite app_nil_r. reflexivity.
  - cbn [collect_images] in H.
    destruct im as [ | | | | | | d]; try discriminate H.
    cbn [map filter Derived.image_url].
    rewrite (IH _ H).
    change (Derived.field d "src") with (Value.get d "src").
    change (Derived.field d "preview_url") with (Value.get d "preview_url").
    change (Derived.field d "url") with (Value.get d "url").
    rewrite <- or_first_truthy.
    destruct (Value.truthy
                (Value.or (Value.or (Value.get d "src") (Value.get d "preview_url"))
                   (Value.get d "url"))).
    + rewrite <- app_assoc. reflexivity.
    + reflexivity.
Qed.

Lemma first_truthy_truthy (candidates : list value) (last : value) :
  Value.truthy last = true ->
  Value.truthy (Derived.first_truthy candidates last) = true.
Proof.
  intros H. unfold Derived.first_truthy.
  destruct (find Value.truthy candidates) as [v | ] eqn:E; [ | exact H].
  apply find_some in E. apply E.
Qed.

(** X8: every document sync builds carries the record's product id;
    as title the record's [title], else its [name], else the literal
    [Untitled] (the first truthy one, so the title is truthy); the
    record's [description]; its [tags] and [categories], an empty list
    when falsy; its [variants] passed through, an empty list when
    falsy; [visible] as [available], true when the field is missing;
    the currency USD; and as images the first 8 truthy URLs of the
    previews ([images], else [files]), in their order, each read as
    [src], else [preview_url], else [url]. *)
Theorem normalized_fields (p : dict) (product_id : value) (doc : StoreProduct.t) :
  normalize p product_id = Ok doc ->
  StoreProduct.id doc = product_id /\
  StoreProduct.title doc =
    Derived.first_truthy [Derived.field p "title"; Derived.field p "name"]
      (VStr "Untitled") /\
  Value.truthy (StoreProduct.title doc) = true /\
  StoreProduct.description doc = Derived.field p "description" /\
  StoreProduct.tags doc = Derived.first_truthy [Derived.field p "tags"] (VList []) /\
  StoreProduct.categories doc =
    Derived.first_truthy [Derived.field p "categories"] (VList []) /\
  StoreProduct.variants doc =
    Derived.first_truthy [Derived.field p "variants"] (VList []) /\
  StoreProduct.available doc =
    match Value.assoc "visible" p with
    | Some v => v
    | None => VBool true
    end /\
  StoreProduct.currency doc = "USD" /\
  (List.length (StoreProduct.images doc) <= 8)%nat /\
  Forall (fun url => Value.truthy url = true) (StoreProduct.images doc) /\
  exists previews,
    Value.iter
      (Derived.first_truthy [Derived.field p "images"; Derived.field p "files"]
         (VList [])) = Ok previews /\
    StoreProduct.images doc =
    firstn 8 (filter Value.truthy (map Derived.image_url previews)).
Proof.
  intros H.
  destruct (normalize_inv p product_id doc H)
    as (pv & imgs & vs & dv & price & Hpv & Himgs & _ & _ & ->).
  cbn [StoreProduct.id StoreProduct.title StoreProduct.currency StoreProduct.images
       StoreProduct.description StoreProduct.tags StoreProduct.categories
       StoreProduct.variants StoreProduct.available].
  apply collect_images_spec in Himgs. cbn [app] in Himgs. subst imgs.
  change Derived.field with Value.get.
  rewrite <- !or_first_truthy, <- !or_first_truthy1.
  split; [reflexivity | ].
  split; [reflexivity | ].
  split; [rewrite or_first_truthy; apply first_truthy_truthy; reflexivity | ].
  split; [reflexivity | ].
  split; [reflexivity | ].
  split; [reflexivity | ].
  split; [reflexivity | ].
  split; [reflexivity | ].
  split; [reflexivity | ].
  split; [apply firstn_le_length | ].
  split.
  - apply Forall_forall. intros url Hurl.
    assert (In url (filter Value.truthy (map Derived.image_url pv))) as Hin.
    { revert Hurl. generalize (filter Value.truthy (map Derived.image_url pv)) as l.
      intros l. generalize 8%nat as n. intros n. revert l.
      induction n as [ | n IHn]; intros [ | y l]; cbn; try contradiction.
      intros [-> | Hr]; [left; reflexivity | right; apply (IHn _ Hr)]. }
    apply filter_In in Hin. apply Hin.
  - exists pv. split; [exact Hpv | reflexivity].
Qed.

Lemma normalized_fields_witness :
  let img n := VDict [("src", VStr ("https://img/" ++ n))] in
  let p := [("id", VStr "p1"); ("title", VStr ""); ("name", VStr "Poster");
            ("tags", VList [VStr "art"]); ("visible", VBool false);
            ("files", VList [img "ignored"]);
            ("images", VList [img "1"; img "2"; VDict [("url", VStr "")];
                              img "3"; img "4"; img "5"; img "6"; img "7";
                              VDict [("src", VStr ""); ("preview_url", VStr "https://img/8");
                                     ("url", VStr "https://img/other")];
                              img "9"])] in
  exists doc,
    normalize p (VStr "p1") = Ok doc /\
    StoreProduct.title doc = VStr "Poster" /\
    StoreProduct.tags doc = VList [VStr "art"] /\
    StoreProduct.categories doc = VList [] /\
    StoreProduct.available doc = VBool false /\
    List.length (StoreProduct.images doc) = 8%nat /\
    nth_error (StoreProduct.images doc) 7 = Some (VStr "https://img/8") /\
    StoreProduct.title doc =
      Derived.first_truthy [Derived.field p "title"; Derived.field p "name"]
        (VStr "Untitled") /\
    Forall (fun url => Value.truthy url = true) (StoreProduct.images doc).
Proof.
  intros img p.
  destruct (normalize p (VStr "p1")) as [doc | e] eqn:E; [ | vm_compute in E; discriminate E].
  exists doc. split; [reflexivity | ].
  pose proof (normalized_fields p (VStr "p1") doc E)
    as (_ & Htitle & _ & _ & _ & _ & _ & _ & _ & _ & Hall & _).
  vm_compute in E. injection E as <-.
  do 6 (split; [reflexivity | ]).
  split; [exact Htitle | exact Hall].
Defined.

Lemma variants_loop_default (vs : list value) (dv dv' : value) (price price' : num) :
  variants_loop vs (dv, price) = Ok (dv', price') ->
  dv' = match find Spec.marked_default (rev vs) with
        | Some v => Derived.variant_id_of v
        | None => dv
        end.
Proof.
  revert dv price. induction vs as [ | v vs IH]; intros dv price H.
  - injection H as <- _. reflexivity.
  - cbn [variants_loop] in H.
    destruct v as [ | | | | | | d]; try discriminate H.
    cbn [variant_step fst snd] in H. cbn [rev]. rewrite find_app.
    cbn [find Spec.marked_default Derived.variant_id_of].
    destruct (Num.of_value (Value.get d "price")) as [x | ].
    + destruct (variant_price x) as [c | e]; [ | discriminate H].
      cbn [rbind] in H. rewrite (IH _ _ H).
      destruct (find Spec.marked_default (rev vs)); [reflexivity | ].
      destruct (Value.truthy (Value.get d "is_default")); reflexivity.
    + cbn [rbind] in H. rewrite (IH _ _ H).
      destruct (find Spec.marked_default (rev vs)); [reflexivity | ].
      destruct (Value.truthy (Value.get d "is_default")); reflexivity.
Qed.

(** X9: the stored [default_variant_id] is the id ([id], else
    [variant_id]) of the last variant marked default, and [None] when
    no variant is marked: with several marked variants the last one
    wins. *)
Theorem default_variant_is_last_marked
  (p : dict) (product_id : value) (doc : StoreProduct.t) :
  normalize p product_id = Ok doc ->
  exists vs,
    Value.iter (Value.or (Value.get p "variants") (VList [])) = Ok vs /\
    StoreProduct.default_variant_id doc = Derived.last_default vs.
Proof.
  intros H.
  destruct (normalize_inv p product_id doc H)
    as (pv & imgs & vs & dv & price & _ & _ & Hvs & Hloop & ->).
  exists vs. split; [exact Hvs | ].
  cbn [StoreProduct.default_variant_id]. unfold Derived.last_default.
  rewrite (variants_loop_default _ _ _ _ _ Hloop). reflexivity.
Qed.

Lemma default_variant_is_last_marked_witness :
  let vs := [VDict [("id", VInt 1); ("is_default", VBool true)];
             VDict [("id", VInt 2)];
             VDict [("variant_id", VInt 3); ("is_default", VBool true)];
             VDict [("id", VInt 4); ("is_default", VBool false)]] in
  let p := [("id", VStr "p1"); ("variants", VList vs)] in
  exists doc,
    normalize p (VStr "p1") = Ok doc /\
    StoreProduct.default_variant_id doc = VInt 3 /\
    exists vs',
      Value.iter (Value.or (Value.get p "variants") (VList [])) = Ok vs' /\
      StoreProduct.default_variant_id doc = Derived.last_default vs'.
Proof.
  intros vs p.
  destruct (normalize p (VStr "p1")) as [doc | e] eqn:E; [ | vm_compute in E; discriminate E].
  exists doc. split; [reflexivity | ].
  pose proof (default_variant_is_last_marked p (VStr "p1") doc E) as H.
  vm_compute in E. injection E as <-.
  split; [reflexivity | exact H].
Defined.

(** ** Catalog query: empty filters *)

(** An empty category or search text is not a filter: the query with
    [category = ""] or [q = ""] is the query without it. *)
Lemma catalog_empty_filters
  (regex_search : string -> string -> string -> bool)
  (category q : option string) (db : Store) :
  Catalog.get_catalog regex_search (Some "") q db =
  Catalog.get_catalog regex_search None q db /\
  Catalog.get_catalog regex_search category (Some "") db =
  Catalog.get_catalog regex_search category None db.
Proof. split; reflexivity. Qed.

(** ** Checkout: failures and line items *)

(** X11: without a payment key [create_checkout_session] raises the
    500 "Stripe not configured" for every payload, before any product
    is looked up, and the store is left as it was. *)
Theorem checkout_requires_key
  (cfg : Config) (upper : string -> string)
  (stripe_create : list Checkout.LineItem -> string -> string -> result Checkout.Session)
  (payload : CheckoutSessionIn.t) (db : Store) :
  unset (STRIPE_API_KEY cfg) = true ->
  Checkout.create_checkout_session cfg upper stripe_create payload db =
  (db, Raise (HTTPException 500 "Stripe not configured")).
Proof.
  intros H. unfold Checkout.create_checkout_session. rewrite H. reflexivity.
Qed.

Lemma checkout_requires_key_witness :
  Checkout.create_checkout_session Sample.cfg_no_stripe Sample.upper Sample.stripe_ok
    (CheckoutSessionIn.mk None [Sample.two_cats] "usd") Sample.catalog_only =
  (Sample.catalog_only, Raise (HTTPException 500 "Stripe not configured")).
Proof. apply checkout_requires_key. reflexivity. Defined.

(** X12: a checkout persists an order only on success: whenever
    [create_checkout_session] raises, be it a lookup, an arithmetic
    error or the payment provider refusing the session, the store is
    left as it was. *)
Theorem checkout_failure_keeps_store
  (cfg : Config) (upper : string -> string)
  (stripe_create : list Checkout.LineItem -> string -> string -> result Checkout.Session)
  (payload : CheckoutSessionIn.t) (db db' : Store) (e : exn) :
  Checkout.create_checkout_session cfg upper stripe_create payload db = (db', Raise e) ->
  db' = db.
Proof.
  unfold Checkout.create_checkout_session.
  destruct (unset (STRIPE_API_KEY cfg)); [intros H; injection H as <- _; reflexivity | ].
  destruct (Checkout.items_loop _ _ _ _ _) as [[line_items total] | e'];
    [ | intros H; injection H as <- _; reflexivity].
  destruct (stripe_create _ _ _) as [s | e'].
  - discriminate.
  - intros H. injection H as <- _. reflexivity.
Qed.

Lemma checkout_failure_keeps_store_witness :
  Checkout.create_checkout_session Sample.cfg Sample.upper
    (fun _ _ _ => Raise RequestException)
    (CheckoutSessionIn.mk None [Sample.two_cats] "usd") Sample.catalog_only =
  (Sample.catalog_only, Raise RequestException) /\
  Sample.catalog_only = Sample.catalog_only.
Proof.
  split; [reflexivity | ].
  apply (checkout_failure_keeps_store Sample.cfg Sample.upper (fun _ _ _ => Raise RequestException)
           (CheckoutSessionIn.mk None [Sample.two_cats] "usd")
           Sample.catalog_only Sample.catalog_only RequestException).
  reflexivity.
Defined.

Lemma items_loop_line_items (currency : string) (products : list StoreProduct.t)
  (items : list CheckoutItem.t) (line_items line_items' : list Checkout.LineItem)
  (acc total : float) :
  Checkout.items_loop currency products items line_items acc = Ok (line_items', total) ->
  exists added,
    line_items' = (line_items ++ added)%list /\
    Forall2 (Derived.line_item_of currency products) items added.
Proof.
  revert line_items acc.
  induction items as [ | it items IH]; intros line_items acc H.
  - injection H as <- _. exists []. rewrite app_nil_r. split; constructor.
  - cbn [Checkout.items_loop] in H.
    destruct (Collection.find_one (by_id (VStr (CheckoutItem.product_id it))) products)
      as [[i sp] | ] eqn:Hfind; [ | discriminate H].
    destruct (Checkout.item_price it sp) as [price | e] eqn:Hp; [ | discriminate H].
    cbn [rbind] in H.
    destruct (Py.float_of_int (CheckoutItem.quantity it)) as [q | e]; [ | discriminate H].
    cbn [rbind] in H.
    destruct (Py.int_of_float (PrimFloat.mul price 100%float)) as [n | e] eqn:Hn;
      [ | discriminate H].
    cbn [rbind] in H.
    destruct (IH _ _ H) as (added & -> & Hall).
    eexists (_ :: added). split; [rewrite <- app_assoc; reflexivity | ].
    constructor; [ | exact Hall].
    exists i, sp, price. cbn. repeat split; assumption.
Qed.

(** X13: on success the payment provider was asked, in payment mode
    with the frontend's success and cancel URLs, for exactly one line
    item per requested item, in request order, each with the stored
    title, at most the first stored image, the item's quantity, the
    payload's currency and the effective price times 100 truncated to
    an integer. *)
Theorem checkout_line_items
  (cfg : Config) (upper : string -> string)
  (stripe_create : list Checkout.LineItem -> string -> string -> result Checkout.Session)
  (payload : CheckoutSessionIn.t) (db db' : Store) (session : Checkout.Session) :
  Checkout.create_checkout_session cfg upper stripe_create payload db = (db', Ok session) ->
  exists line_items,
    stripe_create line_items (FRONTEND_URL cfg ++ "?success=true")
      (FRONTEND_URL cfg ++ "?canceled=true") = Ok session /\
    Forall2 (Derived.line_item_of (CheckoutSessionIn.currency payload) (storeproduct db))
      (CheckoutSessionIn.items payload) line_items.
Proof.
  unfold Checkout.create_checkout_session. intros H.
  destruct (unset (STRIPE_API_KEY cfg)); [discriminate H | ].
  destruct (Checkout.items_loop (CheckoutSessionIn.currency payload) (storeproduct db)
              (CheckoutSessionIn.items payload) [] 0%float)
    as [[line_items total] | e] eqn:Hloop; [ | discriminate H].
  destruct (stripe_create line_items _ _) as [s | e] eqn:Hs; [ | discriminate H].
  injection H as _ <-.
  destruct (items_loop_line_items _ _ _ _ _ _ _ Hloop) as (added & -> & Hall).
  exists added. split; [exact Hs | exact Hall].
Qed.

Lemma checkout_line_items_witness :
  exists line_items,
    Sample.stripe_ok line_items (FRONTEND_URL Sample.cfg ++ "?success=true")
      (FRONTEND_URL Sample.cfg ++ "?canceled=true") =
    Ok (Checkout.mkSession "cs_1" "https://checkout.stripe.com/pay/cs_1") /\
    Forall2 (Derived.line_item_of "usd" (storeproduct Sample.catalog_only))
      [Sample.two_cats] line_items.
Proof.
  apply (checkout_line_items Sample.cfg Sample.upper Sample.stripe_ok
           (CheckoutSessionIn.mk None [Sample.two_cats] "usd")
           Sample.catalog_only Sample.one_order).
  vm_compute. reflexivity.
Defined.

(** X14: an empty cart is not refused: with the payment key set, a
    request without items asks the provider for a session with no
    line items and, when that succeeds, persists an order with
    [amount_total = 0.0], no items, status [created], no fulfillment
    id and as currency what [str.upper] returns for the payload's
    currency, whatever that function is. *)
Theorem checkout_empty_cart
  (cfg : Config) (upper : string -> string)
  (stripe_create : list Checkout.LineItem -> string -> string -> result Checkout.Session)
  (user : option string) (currency : string) (db : Store) (session : Checkout.Session) :
  unset (STRIPE_API_KEY cfg) = false ->
  stripe_create [] (FRONTEND_URL cfg ++ "?success=true")
    (FRONTEND_URL cfg ++ "?canceled=true") = Ok session ->
  Checkout.create_checkout_session cfg upper stripe_create
    (CheckoutSessionIn.mk user [] currency) db =
  (with_order
     (order db ++
      [Order.mk user [] 0%float (upper currency) "created"
         (Checkout.session_id session) None]) db,
   Ok session).
Proof.
  intros Hkey Hs. unfold Checkout.create_checkout_session.
  rewrite Hkey. cbn [CheckoutSessionIn.items CheckoutSessionIn.currency
    CheckoutSessionIn.user_id Checkout.items_loop].
  rewrite Hs. reflexivity.
Qed.

Lemma checkout_empty_cart_witness :
  Checkout.create_checkout_session Sample.cfg Sample.upper Sample.stripe_ok
    (CheckoutSessionIn.mk (Some "u1") [] "eur") Sample.catalog_only =
  (mkStore [Sample.cat]
     [Order.mk (Some "u1") [] 0%float "EUR" "created" "cs_1" None],
   Ok (Checkout.mkSession "cs_1" "https://checkout.stripe.com/pay/cs_1")).
Proof.
  apply (checkout_empty_cart Sample.cfg Sample.upper Sample.stripe_ok (Some "u1") "eur"
           Sample.catalog_only
           (Checkout.mkSession "cs_1" "https://checkout.stripe.com/pay/cs_1"));
    reflexivity.
Defined.

(** ** The webhook: outcomes *)

Section WebhookOutcomes.
Variable cfg : Config.
Variable post : string -> list (string * string) -> Webhook.Payload -> result Webhook.Response.

Lemma webhook_matched (event : StripeWebhook.t) (db : Store) (sid : value)
  (_id : nat) (o : Order.t) :
  StripeWebhook.type event = "checkout.session.completed" ->
  Webhook.session_id_of (StripeWebhook.data event) = Ok sid ->
  Collection.find_one (by_session sid) (order db) = Some (_id, o) ->
  Webhook.stripe_webhook cfg post event db =
  match Webhook.place_order cfg post _id o db with
  | Ok (VDict d) =>
      (Webhook.set_order_status _id "paid"
         (with_order
            (Collection.update_id _id
               (Order.set_printify_order_id (Value.get d "id")) (order db)) db),
       Ok (Webhook.mkAck true))
  | _ => (Webhook.set_order_status _id "failed" db, Ok (Webhook.mkAck true))
  end.
Proof.
  intros Htype Hsid Hfind. unfold Webhook.stripe_webhook.
  rewrite Htype, String.eqb_refl, Hsid, Hfind.
  unfold Webhook._create_printify_order_from_order.
  destruct (Webhook.place_order cfg post _id o db) as [resp | e]; [ | reflexivity].
  destruct resp; reflexivity.
Qed.

Lemma session_id_malformed (data : dict) :
  Webhook.session_id_of data =
  if Derived.malformed_object data then Raise AttributeError
  else Ok (match Value.assoc "object" data with
           | Some (VDict o) => Value.get o "id"
           | _ => VNone
           end).
Proof.
  unfold Webhook.session_id_of, Derived.malformed_object, Value.get_default.
  destruct (Value.assoc "object" data) as [v | ]; [ | reflexivity].
  destruct v; reflexivity.
Qed.

Lemma map_update_id {A B : Type} (f : A -> B) (g : A -> A) (i : nat) (c : list A) :
  (forall x, f (g x) = f x) -> map f (Collection.update_id i g c) = map f c.
Proof.
  intros H. revert i. induction c as [ | x c IH]; intros [ | i]; cbn; try reflexivity.
  - rewrite H. reflexivity.
  - rewrite IH. reflexivity.
Qed.

Lemma line_items_unresolved (products : list StoreProduct.t)
  (items : list CheckoutItem.t) (it : CheckoutItem.t) (acc : list Webhook.LineItem) :
  In it items ->
  Derived.explicit_variant it = None ->
  Collection.find_one (by_id (VStr (CheckoutItem.product_id it))) products = None ->
  exists e, Webhook.order_line_items products items acc = Raise e.
Proof.
  intros Hin Hv Hnone. revert acc.
  induction items as [ | it' items IH]; intros acc; [contradiction | ].
  cbn [Webhook.order_line_items].
  destruct Hin as [-> | Hin].
  - unfold Webhook.item_variant, Derived.explicit_variant in *.
    destruct (CheckoutItem.variant_id it) as [z | ]; cbn [Value.truthy] in *.
    + destruct (z =? 0); [ | discriminate Hv]. cbn [negb]. rewrite Hnone.
      eexists. reflexivity.
    + rewrite Hnone. eexists. reflexivity.
  - destruct (Webhook.item_variant products it') as [v | e]; [ | eexists; reflexivity].
    cbn [rbind]. apply (IH Hin).
Qed.

Lemma line_items_spec (products : list StoreProduct.t)
  (items : list CheckoutItem.t) (acc result : list Webhook.LineItem) :
  Webhook.order_line_items products items acc = Ok result ->
  exists added,
    result = (acc ++ added)%list /\
    Forall2 (Derived.fulfillment_item_of products) items added.
Proof.
  revert acc. induction items as [ | it items IH]; intros acc H.
  - injection H as <-. exists []. rewrite app_nil_r. split; constructor.
  - cbn [Webhook.order_line_items] in H.
    destruct (Webhook.item_variant products it) as [v | e] eqn:Hv; [ | discriminate H].
    cbn [rbind] in H. destruct (IH _ H) as (added & -> & Hall).
    eexists (_ :: added). split; [rewrite <- app_assoc; reflexivity | ].
    constructor; [ | exact Hall].
    unfold Derived.fulfillment_item_of, Derived.explicit_variant.
    cbn [Webhook.li_product_id Webhook.li_quantity Webhook.li_variant_id].
    split; [reflexivity | split; [reflexivity | ]].
    unfold Webhook.item_variant in Hv.
    destruct (CheckoutItem.variant_id it) as [z | ]; cbn [Value.truthy] in Hv.
    + destruct (z =? 0); cbn [negb] in Hv.
      * destruct (Collection.find_one _ products) as [[i sp] | ]; [ | discriminate Hv].
        injection Hv as <-. exists i, sp. split; reflexivity.
      * injection Hv as <-. reflexivity.
    + destruct (Collection.find_one _ products) as [[i sp] | ]; [ | discriminate Hv].
      injection Hv as <-. exists i, sp. split; reflexivity.
Qed.

Lemma place_order_unconfigured (_id : nat) (o : Order.t) (db : Store) :
  unset (PRINTIFY_SHOP_ID cfg) = true \/ unset (PRINTIFY_API_TOKEN cfg) = true ->
  exists e, Webhook.place_order cfg post _id o db = Raise e.
Proof.
  unfold Webhook.place_order, unset at 1.
  destruct (PRINTIFY_SHOP_ID cfg) as [shop | ]; [ | eexists; reflexivity].
  destruct (String.eqb shop ""); [eexists; reflexivity | ].
  intros [H | H]; [discriminate H | ].
  destruct (Webhook.order_line_items (storeproduct db) (Order.items o) [])
    as [lis | e]; [ | eexists; reflexivity].
  cbn [rbind]. rewrite (headers_unset cfg H). eexists. reflexivity.
Qed.

Lemma place_order_rejected (_id : nat) (o : Order.t) (db : Store)
  (r : Webhook.Response) :
  (forall url headers payload, post url headers payload = Ok r) ->
  Webhook.status_code r <> 200 ->
  Webhook.status_code r <> 201 ->
  exists e, Webhook.place_order cfg post _id o db = Raise e.
Proof.
  intros Hpost H200 H201. unfold Webhook.place_order.
  destruct (PRINTIFY_SHOP_ID cfg) as [shop | ]; [ | eexists; reflexivity].
  destruct (String.eqb shop ""); [eexists; reflexivity | ].
  destruct (Webhook.order_line_items (storeproduct db) (Order.items o) [])
    as [lis | e]; [ | eexists; reflexivity].
  cbn [rbind].
  destruct (Webhook._printify_headers cfg) as [headers | e]; [ | eexists; reflexivity].
  cbn [rbind]. rewrite Hpost. cbn [rbind].
  destruct (Webhook.status_code r =? 200) eqn:E; [apply Z.eqb_eq in E; contradiction | ].
  destruct (Webhook.status_code r =? 201) eqn:E'; [apply Z.eqb_eq in E'; contradiction | ].
  eexists. reflexivity.
Qed.
End WebhookOutcomes.

(** X15: when the placement succeeds (the provider answers 200 or 201
    with a JSON object), the matched order ends with status [paid] and
    the provider's order id; no other order and no product is touched,
    and the handler returns [{received: true}]. *)
Theorem webhook_paid
  (cfg : Config)
  (post : string -> list (string * string) -> Webhook.Payload -> result Webhook.Response)
  (event : StripeWebhook.t) (db : Store) (sid : value)
  (_id : nat) (o : Order.t) (d : dict) :
  StripeWebhook.type event = "checkout.session.completed" ->
  Webhook.session_id_of (StripeWebhook.data event) = Ok sid ->
  Collection.find_one (by_session sid) (order db) = Some (_id, o) ->
  Webhook.place_order cfg post _id o db = Ok (VDict d) ->
  exists db',
    Webhook.stripe_webhook cfg post event db = (db', Ok (Webhook.mkAck true)) /\
    nth_error (order db') _id =
      Some (Order.set_status "paid"
              (Order.set_printify_order_id (Value.get d "id") o)) /\
    (forall j, j <> _id -> nth_error (order db') j = nth_error (order db) j) /\
    storeproduct db' = storeproduct db.
Proof.
  intros Htype Hsid Hfind Hplace.
  rewrite (webhook_matched cfg post event db sid _id o Htype Hsid Hfind), Hplace.
  eexists. split; [reflexivity | ].
  destruct (find_one_Some _ _ _ _ Hfind) as [Hnth _].
  unfold Webhook.set_order_status. cbn [order with_order storeproduct].
  split; [ | split; [ | reflexivity]].
  - apply update_id_nth, update_id_nth, Hnth.
  - intros j Hj. rewrite !update_id_other by congruence. reflexivity.
Qed.

Lemma webhook_paid_witness :
  let accepts (_ : string) (_ : list (string * string)) (_ : Webhook.Payload) :=
    Ok (Webhook.mkResponse 201 "" (Ok (VDict [("id", VStr "po_9")]))) in
  exists db',
    Webhook.stripe_webhook Sample.cfg accepts (Sample.completed "cs_1")
      Sample.one_order = (db', Ok (Webhook.mkAck true)) /\
    nth_error (order db') 0 =
      Some (Order.mk None [Sample.two_cats] 30%float "USD" "paid" "cs_1"
              (Some (VStr "po_9"))) /\
    (forall j, j <> 0%nat -> nth_error (order db') j = nth_error (order Sample.one_order) j) /\
    storeproduct db' = storeproduct Sample.one_order.
Proof.
  cbv zeta.
  apply (webhook_paid Sample.cfg _ (Sample.completed "cs_1") Sample.one_order
           (VStr "cs_1") 0 Sample.paid_order [("id", VStr "po_9")]); reflexivity.
Defined.

(** X16: the handler raises in exactly one case, a
    [checkout.session.completed] event whose [data["object"]] is
    present and is not a mapping: it then raises [AttributeError] with
    the store as it was; every other event is answered
    [{received: true}]. *)
Theorem webhook_raises_only_on_malformed_object
  (cfg : Config)
  (post : string -> list (string * string) -> Webhook.Payload -> result Webhook.Response)
  (event : StripeWebhook.t) (db : Store) :
  (StripeWebhook.type event = "checkout.session.completed" /\
   Derived.malformed_object (StripeWebhook.data event) = true ->
   Webhook.stripe_webhook cfg post event db = (db, Raise AttributeError)) /\
  (StripeWebhook.type event <> "checkout.session.completed" \/
   Derived.malformed_object (StripeWebhook.data event) = false ->
   snd (Webhook.stripe_webhook cfg post event db) = Ok (Webhook.mkAck true)).
Proof.
  split.
  - intros [Htype Hbad]. unfold Webhook.stripe_webhook.
    rewrite Htype, String.eqb_refl, session_id_malformed, Hbad. reflexivity.
  - intros H. unfold Webhook.stripe_webhook.
    destruct (String.eqb (StripeWebhook.type event) "checkout.session.completed") eqn:E;
      [ | reflexivity].
    destruct H as [H | H]; [apply String.eqb_eq in E; contradiction | ].
    rewrite session_id_malformed, H.
    destruct (Collection.find_one _ (order db)) as [[_id o] | ]; [ | reflexivity].
    destruct (Webhook._create_printify_order_from_order cfg post _id o db) as [db' [r | e]];
      reflexivity.
Qed.

Lemma webhook_raises_only_on_malformed_object_witness :
  Webhook.stripe_webhook Sample.cfg Sample.post_rejects
    (StripeWebhook.mk "evt_2" "checkout.session.completed" [("object", VStr "cs_1")])
    Sample.one_order = (Sample.one_order, Raise AttributeError) /\
  snd (Webhook.stripe_webhook Sample.cfg Sample.post_rejects
         (StripeWebhook.mk "evt_3" "checkout.session.completed" [])
         Sample.one_order) = Ok (Webhook.mkAck true).
Proof.
  split.
  - apply (proj1 (webhook_raises_only_on_malformed_object _ _ _ _)).
    split; reflexivity.
  - apply (proj2 (webhook_raises_only_on_malformed_object _ _ _ _)).
    right. reflexivity.
Defined.

Lemma placement_preserves
  (cfg : Config)
  (post : string -> list (string * string) -> Webhook.Payload -> result Webhook.Response)
  (_id : nat) (o : Order.t) (db : Store) :
  let db' := fst (Webhook._create_printify_order_from_order cfg post _id o db) in
  storeproduct db' = storeproduct db /\
  map Derived.frozen (order db') = map Derived.frozen (order db).
Proof.
  cbv zeta. unfold Webhook._create_printify_order_from_order.
  destruct (Webhook.place_order cfg post _id o db) as [resp | e];
    [ | split; reflexivity].
  destruct resp; try (split; reflexivity).
  cbn [fst storeproduct order with_order]. split; [reflexivity | ].
  apply map_update_id. intros x. reflexivity.
Qed.

(** X17: whatever the event and the outcome, the webhook never adds or
    removes an order, never touches a product, and changes nothing of
    an order but its status and its fulfillment id: the user, items,
    total, currency and session id of every order stay as they were. *)
Theorem webhook_changes_status_only
  (cfg : Config)
  (post : string -> list (string * string) -> Webhook.Payload -> result Webhook.Response)
  (event : StripeWebhook.t) (db : Store) :
  let db' := fst (Webhook.stripe_webhook cfg post event db) in
  storeproduct db' = storeproduct db /\
  map Derived.frozen (order db') = map Derived.frozen (order db) /\
  List.length (order db') = List.length (order db).
Proof.
  cbv zeta.
  assert (storeproduct (fst (Webhook.stripe_webhook cfg post event db)) = storeproduct db /\
          map Derived.frozen (order (fst (Webhook.stripe_webhook cfg post event db))) =
          map Derived.frozen (order db)) as [H1 H2].
  { unfold Webhook.stripe_webhook.
    destruct (String.eqb (StripeWebhook.type event) "checkout.session.completed");
      [ | split; reflexivity].
    destruct (Webhook.session_id_of (StripeWebhook.data event)) as [sid | e];
      [ | split; reflexivity].
    destruct (Collection.find_one (by_session sid) (order db)) as [[_id o] | ];
      [ | split; reflexivity].
    pose proof (placement_preserves cfg post _id o db) as [Hp Ho]. cbv zeta in Hp, Ho.
    destruct (Webhook._create_printify_order_from_order cfg post _id o db)
      as [db1 [r | e]]; cbn [fst] in *;
      unfold Webhook.set_order_status; cbn [storeproduct order with_order];
      (split; [exact Hp | ]);
      rewrite map_update_id by (intros x; reflexivity); exact Ho. }
  split; [exact H1 | split; [exact H2 | ]].
  rewrite <- (length_map Derived.frozen), H2, length_map. reflexivity.
Qed.

(** X18: while the shop id or the API token is unset, a completed
    event that matches an order marks it [failed] and answers
    [{received: true}], whatever the provider would have answered. *)
Theorem webhook_unconfigured_marks_failed
  (cfg : Config)
  (post : string -> list (string * string) -> Webhook.Payload -> result Webhook.Response)
  (event : StripeWebhook.t) (db : Store) (sid : value) (_id : nat) (o : Order.t) :
  unset (PRINTIFY_SHOP_ID cfg) = true \/ unset (PRINTIFY_API_TOKEN cfg) = true ->
  StripeWebhook.type event = "checkout.session.completed" ->
  Webhook.session_id_of (StripeWebhook.data event) = Ok sid ->
  Collection.find_one (by_session sid) (order db) = Some (_id, o) ->
  Webhook.stripe_webhook cfg post event db =
  (Webhook.set_order_status _id "failed" db, Ok (Webhook.mkAck true)).
Proof.
  intros Hcfg Htype Hsid Hfind.
  rewrite (webhook_matched cfg post event db sid _id o Htype Hsid Hfind).
  destruct (place_order_unconfigured cfg post _id o db Hcfg) as [e ->]. reflexivity.
Qed.

Lemma webhook_unconfigured_marks_failed_witness :
  let accepts (_ : string) (_ : list (string * string)) (_ : Webhook.Payload) :=
    Ok (Webhook.mkResponse 200 "" (Ok (VDict [("id", VStr "po_9")]))) in
  Webhook.stripe_webhook
    (mkConfig None (Some "shop_1") (Some "sk_test") "http://localhost:3000")
    accepts (Sample.completed "cs_1") Sample.one_order =
  (mkStore [Sample.cat]
     [Order.mk None [Sample.two_cats] 30%float "USD" "failed" "cs_1" None],
   Ok (Webhook.mkAck true)).
Proof.
  cbv zeta.
  apply (webhook_unconfigured_marks_failed _ _ (Sample.completed "cs_1")
           Sample.one_order (VStr "cs_1") 0 Sample.paid_order).
  - right. reflexivity.
  - reflexivity.
  - reflexivity.
  - reflexivity.
Defined.

(** X19: when the provider answers the order creation with a status
    other than 200 and 201, a completed event that matches an order
    marks it [failed], stores no fulfillment id, and answers
    [{received: true}]. *)
Theorem webhook_rejected_marks_failed
  (cfg : Config)
  (post : string -> list (string * string) -> Webhook.Payload -> result Webhook.Response)
  (event : StripeWebhook.t) (db : Store) (sid : value) (_id : nat) (o : Order.t)
  (r : Webhook.Response) :
  (forall url headers payload, post url headers payload = Ok r) ->
  Webhook.status_code r <> 200 ->
  Webhook.status_code r <> 201 ->
  StripeWebhook.type event = "checkout.session.completed" ->
  Webhook.session_id_of (StripeWebhook.data event) = Ok sid ->
  Collection.find_one (by_session sid) (order db) = Some (_id, o) ->
  Webhook.stripe_webhook cfg post event db =
  (Webhook.set_order_status _id "failed" db, Ok (Webhook.mkAck true)).
Proof.
  intros Hpost H200 H201 Htype Hsid Hfind.
  rewrite (webhook_matched cfg post event db sid _id o Htype Hsid Hfind).
  destruct (place_order_rejected cfg post _id o db r Hpost H200 H201) as [e ->].
  reflexivity.
Qed.

Lemma webhook_rejected_marks_failed_witness :
  Webhook.stripe_webhook Sample.cfg Sample.post_rejects (Sample.completed "cs_1")
    Sample.one_order =
  (Webhook.set_order_status 0 "failed" Sample.one_order, Ok (Webhook.mkAck true)).
Proof.
  apply (webhook_rejected_marks_failed Sample.cfg Sample.post_rejects
           (Sample.completed "cs_1") Sample.one_order (VStr "cs_1") 0 Sample.paid_order
           (Webhook.mkResponse 422 "unprocessable" (Raise ValueError)));
    try reflexivity; discriminate.
Defined.

(** X20: a placement that succeeds has sent exactly one request, to
    the shop's [orders.json] with the bearer token, carrying the
    order's [_id] as external id and one line item per order item, in
    order, with the item's product id and quantity and, as variant,
    the one the item names when it is not zero, else the stored
    product's default variant; the answer had status 200 or 201. *)
Theorem placement_request
  (cfg : Config)
  (post : string -> list (string * string) -> Webhook.Payload -> result Webhook.Response)
  (_id : nat) (o : Order.t) (db : Store) (resp : value) :
  Webhook.place_order cfg post _id o db = Ok resp ->
  exists shop tok payload r,
    PRINTIFY_SHOP_ID cfg = Some shop /\
    PRINTIFY_API_TOKEN cfg = Some tok /\
    post (PRINTIFY_API_BASE ++ "/shops/" ++ shop ++ "/orders.json")
      [("Authorization", "Bearer " ++ tok); ("Content-Type", "application/json")]
      payload = Ok r /\
    (Webhook.status_code r = 200 \/ Webhook.status_code r = 201) /\
    Webhook.json r = Ok resp /\
    Webhook.external_id payload = _id /\
    Forall2 (Derived.fulfillment_item_of (storeproduct db))
      (Order.items o) (Webhook.line_items payload).
Proof.
  unfold Webhook.place_order. intros H.
  destruct (PRINTIFY_SHOP_ID cfg) as [shop | ]; [ | discriminate H].
  destruct (String.eqb shop ""); [discriminate H | ].
  destruct (Webhook.order_line_items (storeproduct db) (Order.items o) [])
    as [lis | e] eqn:Hlis; [ | discriminate H].
  cbn [rbind] in H.
  unfold Webhook._printify_headers in H.
  destruct (PRINTIFY_API_TOKEN cfg) as [tok | ]; [ | discriminate H].
  destruct (String.eqb tok ""); [discriminate H | ].
  cbn [rbind] in H.
  destruct (post _ _ _) as [r | e] eqn:Hpost; [ | discriminate H].
  cbn [rbind] in H.
  destruct (Webhook.status_code r =? 200) eqn:E200;
    destruct (Webhook.status_code r =? 201) eqn:E201;
    cbn [orb negb] in H; try discriminate H.
  all: destruct (line_items_spec _ _ _ _ Hlis) as (added & -> & Hall); cbn [app] in *.
  all: exists shop, tok, (Webhook.mkPayload added _id "POD Art Shop Order" 1 false), r.
  all: repeat split; try assumption; try reflexivity.
  all: try (left; apply Z.eqb_eq; assumption).
  right. apply Z.eqb_eq. assumption.
Qed.

Lemma placement_request_witness :
  let accepts (_ : string) (_ : list (string * string)) (p : Webhook.Payload) :=
    Ok (Webhook.mkResponse 200 "" (Ok (VInt (Z.of_nat (List.length (Webhook.line_items p)))))) in
  exists shop tok payload r,
    PRINTIFY_SHOP_ID Sample.cfg = Some shop /\
    PRINTIFY_API_TOKEN Sample.cfg = Some tok /\
    accepts (PRINTIFY_API_BASE ++ "/shops/" ++ shop ++ "/orders.json")
      [("Authorization", "Bearer " ++ tok); ("Content-Type", "application/json")]
      payload = Ok r /\
    (Webhook.status_code r = 200 \/ Webhook.status_code r = 201) /\
    Webhook.json r = Ok (VInt 1) /\
    Webhook.external_id payload = 0%nat /\
    Forall2 (Derived.fulfillment_item_of (storeproduct Sample.one_order))
      (Order.items Sample.paid_order) (Webhook.line_items payload).
Proof.
  cbv zeta.
  apply (placement_request Sample.cfg _ 0 Sample.paid_order Sample.one_order (VInt 1)).
  reflexivity.
Defined.

(** X21: an order item that names no variant (none, or 0) and whose
    product is no longer stored makes the placement fail before the
    provider is asked: the matched order is marked [failed] whatever
    the provider would answer. *)
Theorem webhook_unresolved_variant_marks_failed
  (cfg : Config)
  (post : string -> list (string * string) -> Webhook.Payload -> result Webhook.Response)
  (event : StripeWebhook.t) (db : Store) (sid : value) (_id : nat) (o : Order.t)
  (it : CheckoutItem.t) :
  In it (Order.items o) ->
  Derived.explicit_variant it = None ->
  Collection.find_one (by_id (VStr (CheckoutItem.product_id it))) (storeproduct db)
    = None ->
  StripeWebhook.type event = "checkout.session.completed" ->
  Webhook.session_id_of (StripeWebhook.data event) = Ok sid ->
  Collection.find_one (by_session sid) (order db) = Some (_id, o) ->
  Webhook.stripe_webhook cfg post event db =
  (Webhook.set_order_status _id "failed" db, Ok (Webhook.mkAck true)).
Proof.
  intros Hin Hv Hnone Htype Hsid Hfind.
  rewrite (webhook_matched cfg post event db sid _id o Htype Hsid Hfind).
  assert (exists e, Webhook.place_order cfg post _id o db = Raise e) as [e ->];
    [ | reflexivity].
  unfold Webhook.place_order.
  destruct (PRINTIFY_SHOP_ID cfg) as [shop | ]; [ | eexists; reflexivity].
  destruct (String.eqb shop ""); [eexists; reflexivity | ].
  destruct (line_items_unresolved (storeproduct db) (Order.items o) it [] Hin Hv Hnone)
    as [e ->].
  eexists. reflexivity.
Qed.

Lemma webhook_unresolved_variant_marks_failed_witness :
  let accepts (_ : string) (_ : list (string * string)) (_ : Webhook.Payload) :=
    Ok (Webhook.mkResponse 200 "" (Ok (VDict [("id", VStr "po_9")]))) in
  let db := mkStore [] [Sample.paid_order] in
  Webhook.stripe_webhook Sample.cfg accepts (Sample.completed "cs_1") db =
  (Webhook.set_order_status 0 "failed" db, Ok (Webhook.mkAck true)).
Proof.
  cbv zeta.
  apply (webhook_unresolved_variant_marks_failed Sample.cfg _ (Sample.completed "cs_1")
           (mkStore [] [Sample.paid_order]) (VStr "cs_1") 0 Sample.paid_order
           Sample.two_cats); try reflexivity.
  left. reflexivity.
Defined.

(** ** Wishlist *)

(** X22: adding a wishlist entry answers [ok] and appends it without
    any check: listing the entry's user afterwards returns what was
    listed before followed by the new entry, even when an equal entry
    is already there, and the list of every other user is the same as
    before. *)
Theorem wishlist_add_then_get
  (item : Wishlist.WishlistIn) (user : string) (wishlist : list Wishlist.WishlistIn) :
  snd (Wishlist.add_wishlist item wishlist) = "ok" /\
  Wishlist.get_wishlist user (fst (Wishlist.add_wishlist item wishlist)) =
  (Wishlist.get_wishlist user wishlist ++
   (if String.eqb (Wishlist.user_id item) user then [item] else []))%list.
Proof.
  split; [reflexivity | ].
  unfold Wishlist.add_wishlist, Wishlist.get_wishlist, Collection.insert_one.
  cbn [fst]. rewrite filter_app. reflexivity.
Qed.

(** ** Catalog query: combined filters *)

Lemma get_documents_in {A : Type} (filt : A -> bool) (limit : nat) (c : list A) (x : A) :
  In x (Collection.get_documents filt limit c) -> In x c /\ filt x = true.
Proof.
  unfold Collection.get_documents. intros H.
  apply filter_In. revert H. generalize (filter filt c) as l. intros l. revert limit.
  induction l as [ | y l IH]; intros [ | n]; cbn; try contradiction.
  intros [-> | H]; [left; reflexivity | right; exact (IH _ H)].
Qed.

(** X10: the filters of a catalog query combine with AND, and an empty
    one is no filter: every returned product is a stored one with
    [available = true]; with a non-empty category its categories are,
    or hold, that category; with a non-empty text its title is a
    string the case-insensitive search for the text matches; and the
    query with [category = ""] or [q = ""] is the query without it. *)
Theorem catalog_filters_combine
  (regex_search : string -> string -> string -> bool)
  (category q : option string) (db : Store) (sp : StoreProduct.t) :
  In sp (Catalog.get_catalog regex_search category q db) ->
  In sp (storeproduct db) /\
  StoreProduct.available sp = VBool true /\
  (forall c, category = Some c -> c <> "" ->
     Catalog.holds regex_search (Catalog.In [VStr c]) (StoreProduct.categories sp)
       = true) /\
  (forall t, q = Some t -> t <> "" ->
     exists title, StoreProduct.title sp = VStr title /\
                   regex_search t "i" title = true) /\
  Catalog.get_catalog regex_search (Some "") q db =
    Catalog.get_catalog regex_search None q db /\
  Catalog.get_catalog regex_search category (Some "") db =
    Catalog.get_catalog regex_search category None db.
Proof.
  intros H. apply get_documents_in in H as [Hin Hm].
  split; [exact Hin | ].
  unfold Catalog.matches, Catalog.catalog_filter in Hm.
  cbn [app forallb fst snd] in Hm. apply andb_true_iff in Hm as [Hav Hm].
  split; [apply value_eqb_eq; exact Hav | ].
  rewrite forallb_app in Hm. apply andb_true_iff in Hm as [Hc Hq].
  split; [ | split; [ | split; reflexivity]].
  - intros c -> Hne. destruct (String.eqb c "") eqn:E;
      [apply String.eqb_eq in E; contradiction | ].
    cbn [forallb fst snd] in Hc. apply andb_true_iff in Hc as [Hc _]. exact Hc.
  - intros t -> Hne. destruct (String.eqb t "") eqn:E;
      [apply String.eqb_eq in E; contradiction | ].
    cbn [forallb fst snd Catalog.holds] in Hq. apply andb_true_iff in Hq as [Hq _].
    change (Catalog.field sp "title") with (StoreProduct.title sp) in Hq.
    destruct (StoreProduct.title sp) as [ | | | | title | | ]; try discriminate Hq.
    exists title. split; [reflexivity | exact Hq].
Qed.

Lemma catalog_filters_combine_witness :
  let search (pattern options text : string) := String.eqb pattern "cat" in
  let poster :=
    StoreProduct.mk (VStr "p1") (VStr "Cat") VNone [] (VList [])
      (VList [VStr "posters"]) (VList []) VNone (NInt 0) "USD" (VBool true) in
  let hidden :=
    StoreProduct.mk (VStr "p2") (VStr "Cat") VNone [] (VList [])
      (VList [VStr "posters"]) (VList []) VNone (NInt 0) "USD" (VBool false) in
  let db := mkStore [hidden; poster] [] in
  Catalog.get_catalog search (Some "posters") (Some "cat") db = [poster] /\
  StoreProduct.available poster = VBool true /\
  In poster (storeproduct db).
Proof.
  cbv zeta. split; [vm_compute; reflexivity | ].
  match goal with
  | |- StoreProduct.available ?sp = _ /\ In _ (storeproduct ?db) =>
      destruct (catalog_filters_combine
                  (fun pattern _ _ => String.eqb pattern "cat")
                  (Some "posters") (Some "cat") db sp) as (Hin & Hav & _)
  end.
  - vm_compute. left. reflexivity.
  - split; [exact Hav | exact Hin].
Defined.
